(** * CVAT engine views: a shallow embedding of [cvat/apps/engine/views.py]

    The development follows the Python module:
    - [PyStr]    : the string operations of the Python runtime the views use;
    - [PosixPath]: [os.path.join], [os.path.normpath], [os.path.abspath];
    - [Rt]       : the background-job queue, the file system and the monad in
                   which the views run;
    - [Cfg]      : settings, requests and what the views import;
    - [Jobs]     : [_import_annotations], [_export_annotations] and
                   [_import_project_dataset];
    - [ServerViewSet], [ProjectViewSet], [DataChunkGetter], [TaskViewSet]
      (over the rows of [Db]) and [JobViewSet]: the classes of the file;
    - [RqHandler], [DataViews], [UserViewSet], [Plugins] and
      [CloudStorageViewSet]: the handler of failed jobs and further actions;
    - [Demo]     : a small server to run them on;
    - [Ids]      : the vocabulary of the statements;
    - the theorems about them. *)

From Stdlib Require Import ZArith String Ascii List Lia.
From stdpp Require Import base gmap strings list fin_maps pretty.

Local Open Scope string_scope.
Local Open Scope Z_scope.

(** ** Python string operations *)
Module PyStr.

(** [s.startswith(p)] *)
Fixpoint startswith (p s : string) : bool :=
  match p, s with
  | EmptyString, _ => true
  | String a p', String b s' => if Ascii.eqb a b then startswith p' s' else false
  | String _ _, EmptyString => false
  end.

(** [s.endswith("/")], the only use of [endswith] in [posixpath.join]. *)
Fixpoint endswith_slash (s : string) : bool :=
  match s with
  | EmptyString => false
  | String c EmptyString => Ascii.eqb c "/"
  | String _ s' => endswith_slash s'
  end.

(** [s[1:]] *)
Definition tail (s : string) : string :=
  match s with
  | EmptyString => EmptyString
  | String _ s' => s'
  end.

(** [s.replace(old, new)] for a non-empty [old]: every non-overlapping
    occurrence, leftmost first.  [skip] counts the characters of a matched
    occurrence that are still to be dropped. *)
Fixpoint replace_from (old new : string) (skip : nat) (s : string) : string :=
  match s with
  | EmptyString => EmptyString
  | String c s' =>
      match skip with
      | S k => replace_from old new k s'
      | O =>
          if startswith old s
          then new +:+ replace_from old new (Nat.pred (String.length old)) s'
          else String c (replace_from old new O s')
      end
  end.

(** [s.replace("", new)] puts [new] before every character and at the end. *)
Fixpoint intersperse (new s : string) : string :=
  match s with
  | EmptyString => new
  | String c s' => new +:+ String c (intersperse new s')
  end.

Definition replace (old new s : string) : string :=
  match old with
  | EmptyString => intersperse new s
  | _ => replace_from old new O s
  end.

(** [c.lower()] on the ASCII letters; other bytes are left as they are. *)
Definition lower_ascii (c : ascii) : ascii :=
  let n := nat_of_ascii c in
  if (Nat.leb 65 n && Nat.leb n 90)%bool then ascii_of_nat (n + 32) else c.

Fixpoint lower (s : string) : string :=
  match s with
  | EmptyString => EmptyString
  | String c s' => String (lower_ascii c) (lower s')
  end.

(** [s.split("/")]: never empty, one more field than there are slashes. *)
Fixpoint split_slash (s : string) : list string :=
  match s with
  | EmptyString => [EmptyString]
  | String c s' =>
      if Ascii.eqb c "/" then EmptyString :: split_slash s'
      else match split_slash s' with
           | [] => [String c EmptyString]
           | f :: fs => String c f :: fs
           end
  end.

(** ["/".join(l)] *)
Fixpoint join_slash (l : list string) : string :=
  match l with
  | [] => EmptyString
  | [x] => x
  | x :: l' => x +:+ "/" +:+ join_slash l'
  end.

(** A string is truthy when it is not empty. *)
Definition truthy (s : string) : bool :=
  match s with EmptyString => false | _ => true end.

(** [s[len(p):]] when [s.startswith(p)] *)
Fixpoint strip_prefix (p s : string) : option string :=
  match p, s with
  | EmptyString, _ => Some s
  | String a p', String b s' => if Ascii.eqb a b then strip_prefix p' s' else None
  | String _ _, EmptyString => None
  end.

(** ["/" in s] *)
Fixpoint has_slash (s : string) : bool :=
  match s with
  | EmptyString => false
  | String c s' => (Ascii.eqb c "/" || has_slash s')%bool
  end.

End PyStr.

(** ** [posixpath]: the path functions behind [os.path] on the server *)
Module PosixPath.
Import PyStr.

(** [posixpath.isabs] *)
Definition isabs (s : string) : bool := startswith "/" s.

(** [posixpath.join(a, b)] with one extra component. *)
Definition join (a b : string) : string :=
  if startswith "/" b then b
  else if (negb (truthy a) || endswith_slash a)%bool then a +:+ b
  else a +:+ "/" +:+ b.

(** POSIX allows one or two initial slashes and treats three or more as one. *)
Definition initial_slashes (path : string) : nat :=
  if startswith "/" path then
    if (startswith "//" path && negb (startswith "///" path))%bool then 2%nat else 1%nat
  else 0%nat.

Definition is_nil {A} (l : list A) : bool :=
  match l with [] => true | _ => false end.

(** One turn of the loop over [comps] in [normpath]; [new_comps] is the
    list built so far, appended to and popped at its end. *)
Definition norm_step (init : nat) (new_comps : list string) (comp : string) : list string :=
  if (String.eqb comp "" || String.eqb comp ".")%bool then new_comps
  else if (negb (String.eqb comp "..")
           || (Nat.eqb init 0 && is_nil new_comps)
           || (negb (is_nil new_comps) && String.eqb (List.last new_comps "") ".."))%bool
       then new_comps ++ [comp]
       else if negb (is_nil new_comps) then List.removelast new_comps
            else new_comps.

Fixpoint slashes (n : nat) : string :=
  match n with O => EmptyString | S k => String "/" (slashes k) end.

(** [posixpath.normpath] *)
Definition normpath (path : string) : string :=
  if truthy path then
    let init := initial_slashes path in
    let comps := fold_left (norm_step init) (split_slash path) [] in
    let p := slashes init +:+ join_slash comps in
    if truthy p then p else "."
  else ".".

(** [posixpath.abspath], with the working directory of the process. *)
Definition abspath (cwd path : string) : string :=
  normpath (if isabs path then path else join cwd path).

(** [d] is [root] itself or lies below it in the directory tree. *)
Definition under (root d : string) : bool :=
  (String.eqb d root || startswith (root +:+ "/") d)%bool.

End PosixPath.

(** ** The runtime the views run in: job queue, file system, clock *)
Module Rt.

(** Python values that travel through job metadata and response bodies. *)
Inductive Value :=
| VNone
| VStr (s : string)
| VInt (z : Z)
| VFloat (num : Z) (den : positive)
| VTime (t : Z).

(** [str(x)] for a value that is a string or [None]. *)
Definition str (x : option string) : string :=
  match x with
  | None => "None"
  | Some s => s
  end.

(** A string or [None] as a Python value. *)
Definition of_opt_str (x : option string) : Value :=
  match x with
  | None => VNone
  | Some s => VStr s
  end.

(** The exceptions that escape a view. *)
Inductive Exn :=
| ValidationError (detail : string)
| NotFound (detail : string)
| KeyError (key : string)
| TypeError
| ValueError
| FileNotFoundError (path : string)
| OSError
| FileExistsError
| DoesNotExist.

(** How the REST framework answers an escaped exception: its own
    [APIException] classes carry their status, anything else is a server
    error. *)
Definition status_of_exn (e : Exn) : Z :=
  match e with
  | ValidationError _ => 400
  | NotFound _ => 404
  | _ => 500
  end.

(** [rq.job.JobStatus] *)
Inductive JobStatus :=
| QUEUED | FINISHED | FAILED | STARTED | DEFERRED | SCHEDULED | STOPPED | CANCELED.

(** The functions handed to the queue. *)
Inductive RqFunc :=
| import_dataset_as_project
| import_task_annotations
| import_job_annotations
| export_project_as_dataset
| export_project_annotations
| export_task_as_dataset
| export_task_annotations
| create_task.

(** An [rq.job.Job] as the views see it. *)
Record RqJob := {
  job_status : JobStatus;
  job_meta : gmap string Value;
  job_exc_info : option string;
  job_return_value : option string;
  job_func : RqFunc;
  job_args : list Value;
  job_result_ttl : option Z;
  job_failure_ttl : option Z;
}.

Definition is_finished (j : RqJob) : bool :=
  match job_status j with FINISHED => true | _ => false end.
Definition is_queued (j : RqJob) : bool :=
  match job_status j with QUEUED => true | _ => false end.
Definition is_failed (j : RqJob) : bool :=
  match job_status j with FAILED => true | _ => false end.

(** What the views do to the queue, in the order they do it. *)
Inductive RqEvent :=
| EvFetch (job_id : string)
| EvEnqueue (job_id : string) (j : RqJob)
| EvSaveMeta (job_id : string)
| EvCancel (job_id : string)
| EvDelete (job_id : string).

Inductive Node := RegularFile | Directory | Special.

(** The world outside the request: the jobs of the default queue, the
    file system, the open descriptors of the process, the clock, the
    names [mkstemp] will hand out next, and the trace of queue calls. *)
Record World := {
  rq : gmap string RqJob;
  fs : gmap string Node;
  fds : gset Z;
  now : Z;
  tmp_supply : list (Z * string);
  trace : list RqEvent;
}.

Definition set_rq (f : gmap string RqJob -> gmap string RqJob) (w : World) : World :=
  {| rq := f (rq w); fs := fs w; fds := fds w; now := now w;
     tmp_supply := tmp_supply w; trace := trace w |}.
Definition set_fs (f : gmap string Node -> gmap string Node) (w : World) : World :=
  {| rq := rq w; fs := f (fs w); fds := fds w; now := now w;
     tmp_supply := tmp_supply w; trace := trace w |}.
Definition set_fds (f : gset Z -> gset Z) (w : World) : World :=
  {| rq := rq w; fs := fs w; fds := f (fds w); now := now w;
     tmp_supply := tmp_supply w; trace := trace w |}.
Definition set_tmp_supply (l : list (Z * string)) (w : World) : World :=
  {| rq := rq w; fs := fs w; fds := fds w; now := now w;
     tmp_supply := l; trace := trace w |}.
Definition log (e : RqEvent) (w : World) : World :=
  {| rq := rq w; fs := fs w; fds := fds w; now := now w;
     tmp_supply := tmp_supply w; trace := trace w ++ [e] |}.

(** *** The monad of a view: state of the world, and exceptions.
    What was done before an exception was raised stays done. *)
Inductive Res (A : Type) :=
| Ok (a : A)
| Raise (e : Exn).
Arguments Ok {A} a.
Arguments Raise {A} e.

Definition M (A : Type) : Type := World -> Res A * World.

Definition ret {A} (a : A) : M A := fun w => (Ok a, w).
Definition raise {A} (e : Exn) : M A := fun w => (Raise e, w).
Definition bind {A B} (m : M A) (k : A -> M B) : M B :=
  fun w => match m w with
           | (Ok a, w') => k a w'
           | (Raise e, w') => (Raise e, w')
           end.
Definition get : M World := fun w => (Ok w, w).
Definition modify (f : World -> World) : M unit := fun w => (Ok tt, f w).

#[global] Instance M_ret : MRet M := @ret.
#[global] Instance M_bind : MBind M := fun A B k m => bind m k.

(** *** Queue primitives *)

(** [queue.fetch_job(job_id)] *)
Definition fetch_job (job_id : string) : M (option RqJob) :=
  fun w => (Ok (rq w !! job_id), log (EvFetch job_id) w).

(** [queue.enqueue_call(func, args, job_id, meta, result_ttl, failure_ttl)]:
    the new job is stored under its id, over whatever was there. *)
Definition enqueue_call (func : RqFunc) (args : list Value) (job_id : string)
    (meta : gmap string Value) (result_ttl failure_ttl : option Z) : M RqJob :=
  let j := {| job_status := QUEUED; job_meta := meta; job_exc_info := None;
              job_return_value := None; job_func := func; job_args := args;
              job_result_ttl := result_ttl; job_failure_ttl := failure_ttl |} in
  fun w => (Ok j, log (EvEnqueue job_id j) (set_rq (insert job_id j) w)).

Definition with_meta (meta : gmap string Value) (j : RqJob) : RqJob :=
  {| job_status := job_status j; job_meta := meta; job_exc_info := job_exc_info j;
     job_return_value := job_return_value j; job_func := job_func j;
     job_args := job_args j; job_result_ttl := job_result_ttl j;
     job_failure_ttl := job_failure_ttl j |}.

Definition with_status (s : JobStatus) (j : RqJob) : RqJob :=
  {| job_status := s; job_meta := job_meta j; job_exc_info := job_exc_info j;
     job_return_value := job_return_value j; job_func := job_func j;
     job_args := job_args j; job_result_ttl := job_result_ttl j;
     job_failure_ttl := job_failure_ttl j |}.

(** [rq_job.save_meta()]: the metadata of the local job object is written
    to the stored job. *)
Definition save_meta (job_id : string) (j : RqJob) : M unit :=
  modify (fun w => log (EvSaveMeta job_id)
                     (set_rq (alter (with_meta (job_meta j)) job_id) w)).

(** [rq_job.cancel()] *)
Definition cancel (job_id : string) : M unit :=
  modify (fun w => log (EvCancel job_id)
                     (set_rq (alter (with_status CANCELED) job_id) w)).

(** [rq_job.delete()] *)
Definition delete_job (job_id : string) : M unit :=
  modify (fun w => log (EvDelete job_id) (set_rq (delete job_id) w)).

(** *** Operating-system primitives *)

(** [os.close(fd)] *)
Definition os_close (fd : Z) : M unit :=
  fun w => if decide (fd ∈ fds w)
           then (Ok tt, set_fds (fun s => s ∖ {[fd]}) w)
           else (Raise OSError, w).

(** [os.remove(path)] *)
Definition os_remove (path : string) : M unit :=
  fun w => match fs w !! path with
           | Some RegularFile => (Ok tt, set_fs (delete path) w)
           | Some _ => (Raise OSError, w)
           | None => (Raise (FileNotFoundError path), w)
           end.

(** [os.path.exists(path)] *)
Definition exists_ (path : string) : M bool :=
  fun w => (Ok (bool_decide (is_Some (fs w !! path))), w).

(** [os.path.isdir(path)] *)
Definition isdir (path : string) : M bool :=
  fun w => (Ok (match fs w !! path with Some Directory => true | _ => false end), w).

(** [tempfile.mkstemp(prefix=prefix)] followed by writing the upload into
    the new file: the next descriptor and random suffix of the supply. *)
Definition mkstemp (tmpdir prefix : string) : M (Z * string) :=
  fun w => match tmp_supply w with
           | [] => (Raise FileExistsError, w)
           | (fd, suffix) :: rest =>
               let filename := PosixPath.join tmpdir (prefix +:+ suffix) in
               (Ok (fd, filename),
                set_tmp_supply rest
                  (set_fds (fun s => s ∪ {[fd]})
                     (set_fs (insert filename RegularFile) w)))
           end.

(** [os.scandir(directory)]: the names directly below the directory, with
    what they are. *)
Definition scandir (directory : string) : M (list (string * Node)) :=
  fun w =>
    let prefix := if PyStr.endswith_slash directory then directory
                  else directory +:+ "/" in
    let entry (kv : string * Node) :=
      match PyStr.strip_prefix prefix kv.1 with
      | Some name =>
          if (PyStr.truthy name && negb (PyStr.has_slash name))%bool
          then Some (name, kv.2) else None
      | None => None
      end in
    (Ok (omap entry (map_to_list (fs w))), w).

(** [timezone.localtime()] *)
Definition localtime_now : M Z := fun w => (Ok (now w), w).

(** [d[key]] on job metadata *)
Definition meta_item (j : RqJob) (key : string) : M Value :=
  match job_meta j !! key with
  | Some v => ret v
  | None => raise (KeyError key)
  end.

Definition as_int (v : Value) : M Z :=
  match v with VInt z => ret z | _ => raise TypeError end.
Definition as_str (v : Value) : M string :=
  match v with VStr s => ret s | _ => raise TypeError end.

(** *** What a view returns *)
Inductive Data :=
| DNone
| DStr (s : string)
| DDict (d : gmap string Value)
| DFiles (l : list (string * string)).

Inductive HttpResult :=
| Response (status : Z) (data : Data)
| Sendfile (path : string) (attachment_filename : option string).

Definition HTTP_200_OK := 200.
Definition HTTP_201_CREATED := 201.
Definition HTTP_202_ACCEPTED := 202.
Definition HTTP_400_BAD_REQUEST := 400.
Definition HTTP_404_NOT_FOUND := 404.
Definition HTTP_405_METHOD_NOT_ALLOWED := 405.
Definition HTTP_409_CONFLICT := 409.
Definition HTTP_500_INTERNAL_SERVER_ERROR := 500.

End Rt.

(** ** What the views take from the rest of the server *)
Module Cfg.
Import Rt.

(** A dataset format plug-in, as far as the views look at it. *)
Record Format := {
  DISPLAY_NAME : string;
  ENABLED : bool;
}.

(** [request] *)
Record Request := {
  method : string;
  query_params : gmap string string;
  user : string;                      (* [str(request.user)] *)
  scheme : string;
  host : option string;               (* [get_host()], [None] when it raises *)
  data : gmap string (list string);   (* uploaded files by field name *)
}.

(** [models.Task] and [models.Project] as [_export_annotations] reads them. *)
Record Task := {
  task_id : Z;
  task_name : string;
  task_updated_date : Z;
}.

Record Project := {
  project_id : Z;
  project_name : string;
  project_updated_date : Z;
  project_tasks : list Task;         (* [db_project.tasks.all()] *)
}.

Inductive Instance :=
| IsProject (p : Project)
| IsTask (t : Task).

(** Settings, [dm.views] and the library calls whose result the views
    only pass on. *)
Record Env := {
  SHARE_ROOT : string;
  cwd : string;
  tmpdir : string;
  get_export_formats : list Format;
  get_import_formats : list Format;
  PROJECT_CACHE_TTL : Z;              (* [.total_seconds()] *)
  TASK_CACHE_TTL : Z;
  (* ['{}.{}'.format(CvatImportError.__module__, CvatImportError.__name__)] *)
  import_error_prefix : string;
  (* [av_scan_paths]: the detail of the [ValidationError] it raises, if any *)
  av_scan_paths : string -> option string;
  strftime : Z -> string;             (* with ["%Y_%m_%d_%H_%M_%S"] *)
  splitext_ext : string -> string;    (* [osp.splitext(p)[1]] *)
  (* [FileInfoSerializer(many=True)]: [None] when the data is not valid *)
  FileInfoSerializer : list (string * string) -> option (list (string * string));
  (* [RqStatusSerializer]: [None] when the data is not valid *)
  RqStatusSerializer : gmap string Value -> option (gmap string Value);
  (* the branches of the annotation views that call [dm.task] directly *)
  dm_task_direct : string -> Request -> string -> M HttpResult;
}.

(** [{f.DISPLAY_NAME: f for f in formats}]: a later format of the same name
    replaces an earlier one. *)
Definition by_display_name (formats : list Format) : gmap string Format :=
  fold_left (fun d f => <[DISPLAY_NAME f := f]> d) formats ∅.

(** [request.query_params.get(key, default)] *)
Definition query_get (request : Request) (key default : string) : string :=
  match query_params request !! key with
  | Some v => v
  | None => default
  end.

End Cfg.

(** ** The module-level functions of [views.py] *)
Module Jobs.
Import PyStr Rt Cfg.

Section WithEnv.
Context (env : Env).

(** The serializers of an upload: valid when the file field is there. *)
Definition validated_file (request : Request) (field : string) : M (list string) :=
  match data request !! field with
  | Some chunks => mret chunks
  | None => raise (ValidationError ("No file was submitted: " +:+ field))
  end.

(** [os.close(rq_job.meta['tmp_file_descriptor'])] and
    [os.remove(rq_job.meta['tmp_file'])] *)
Definition close_and_remove_tmp (rq_job : RqJob) : M unit :=
  fd ← meta_item rq_job "tmp_file_descriptor" ≫= as_int;
  os_close fd;;
  tmp_file ← meta_item rq_job "tmp_file" ≫= as_str;
  os_remove tmp_file.

Definition _import_annotations (request : Request) (rq_id : string)
    (rq_func : RqFunc) (pk format_name : string) : M HttpResult :=
  match by_display_name (get_import_formats env) !! format_name with
  | None => raise (ValidationError ("Unknown input format '" +:+ format_name +:+ "'"))
  | Some format_desc =>
    if negb (ENABLED format_desc) then mret (Response HTTP_405_METHOD_NOT_ALLOWED DNone)
    else
      rq_job ← fetch_job rq_id;
      match rq_job with
      | None =>
          _ ← validated_file request "annotation_file";
          '(fd, filename) ← mkstemp (tmpdir env) ("cvat_" +:+ pk);
          match av_scan_paths env filename with
          | Some detail => raise (ValidationError detail)
          | None =>
              rq_job ← enqueue_call rq_func [VStr pk; VStr filename; VStr format_name]
                         rq_id ∅ None None;
              let meta := <["tmp_file_descriptor" := VInt fd]>
                            (<["tmp_file" := VStr filename]> (job_meta rq_job)) in
              save_meta rq_id (with_meta meta rq_job);;
              mret (Response HTTP_202_ACCEPTED DNone)
          end
      | Some rq_job =>
          if is_finished rq_job then
            close_and_remove_tmp rq_job;;
            delete_job rq_id;;
            mret (Response HTTP_201_CREATED DNone)
          else if is_failed rq_job then
            close_and_remove_tmp rq_job;;
            let exc_info := str (job_exc_info rq_job) in
            delete_job rq_id;;
            (* RQ adds a prefix with exception class name *)
            if startswith (import_error_prefix env) exc_info then
              let exc_info := replace (import_error_prefix env +:+ ": ") "" exc_info in
              mret (Response HTTP_400_BAD_REQUEST (DStr exc_info))
            else
              mret (Response HTTP_500_INTERNAL_SERVER_ERROR (DStr exc_info))
          else mret (Response HTTP_202_ACCEPTED DNone)
      end
  end.

(** [timezone.localtime(db_instance.updated_date)], raised for a project to
    the latest update of its tasks. *)
Definition last_instance_update_time (db_instance : Instance) : Z :=
  match db_instance with
  | IsTask t => task_updated_date t
  | IsProject p =>
      let tasks_update := map task_updated_date (project_tasks p) in
      fold_right Z.max (project_updated_date p) tasks_update
  end.

(** [request_time is None or request_time < last_instance_update_time] *)
Definition is_outdated (rq_job : RqJob) (last_update : Z) : M bool :=
  match job_meta rq_job !! "request_time" with
  | None | Some VNone => mret true
  | Some (VTime request_time) => mret (request_time <? last_update)
  | Some _ => raise TypeError
  end.

(** The [try] block that builds [server_address]; any exception in it
    (an unbound name when the scheme is empty, a refused host) gives
    [None]. *)
Definition server_address (request : Request) : Value :=
  if truthy (scheme request) then
    match host request with
    | Some h => VStr (scheme request +:+ "://" +:+ h)
    | None => VNone
    end
  else VNone.

Definition instance_id (db_instance : Instance) : Z :=
  match db_instance with
  | IsProject p => project_id p
  | IsTask t => task_id t
  end.

Definition instance_name (db_instance : Instance) : string :=
  match db_instance with
  | IsProject p => project_name p
  | IsTask t => task_name t
  end.

Definition cache_ttl (db_instance : Instance) : Z :=
  match db_instance with
  | IsProject _ => PROJECT_CACHE_TTL env
  | IsTask _ => TASK_CACHE_TTL env
  end.

(** The part of [_export_annotations] under [if rq_job:]. It returns the
    response when it answers the request itself and [None] when control
    falls through to the enqueue below it. *)
Definition export_cached (db_instance : Instance) (rq_id : string)
    (format_name action filename : string) (rq_job : RqJob) : M (option HttpResult) :=
  let last_update := last_instance_update_time db_instance in
  outdated ← is_outdated rq_job last_update;
  if outdated : bool then
    cancel rq_id;;
    delete_job rq_id;;
    mret None
  else if is_finished rq_job then
    match job_return_value rq_job with
    | None => raise TypeError
    | Some file_path =>
        there ← exists_ file_path;
        if (String.eqb action "download" && there)%bool then
          delete_job rq_id;;
          let timestamp := strftime env last_update in
          let filename :=
            if truthy filename then filename
            else (match db_instance with IsProject _ => "project" | IsTask _ => "task" end)
                 +:+ "_" +:+ instance_name db_instance +:+ "-" +:+ timestamp
                 +:+ "-" +:+ format_name +:+ splitext_ext env file_path in
          mret (Some (Sendfile file_path (Some (lower filename))))
        else if there : bool then mret (Some (Response HTTP_201_CREATED DNone))
        else mret None
    end
  else if is_failed rq_job then
    let exc_info := str (job_exc_info rq_job) in
    delete_job rq_id;;
    mret (Some (Response HTTP_500_INTERNAL_SERVER_ERROR (DStr exc_info)))
  else mret (Some (Response HTTP_202_ACCEPTED DNone)).

(** The tail of [_export_annotations]: a new job under [rq_id]. *)
Definition export_enqueue (db_instance : Instance) (rq_id : string)
    (request : Request) (format_name : string) (callback : RqFunc) : M HttpResult :=
  let ttl := cache_ttl db_instance in
  request_time ← localtime_now;
  enqueue_call callback
    [VInt (instance_id db_instance); VStr format_name; server_address request]
    rq_id {["request_time" := VTime request_time]} (Some ttl) (Some ttl);;
  mret (Response HTTP_202_ACCEPTED DNone).

Definition _export_annotations (db_instance : Instance) (rq_id : string)
    (request : Request) (format_name action : string) (callback : RqFunc)
    (filename : string) : M HttpResult :=
  if negb (String.eqb action "" || String.eqb action "download") then
    raise (ValidationError "Unexpected action specified for the request")
  else
  match by_display_name (get_export_formats env) !! format_name with
  | None => raise (ValidationError "Unknown format specified for the request")
  | Some format_desc =>
    if negb (ENABLED format_desc) then mret (Response HTTP_405_METHOD_NOT_ALLOWED DNone)
    else
      rq_job ← fetch_job rq_id;
      answered ← match rq_job with
                 | Some rq_job =>
                     export_cached db_instance rq_id format_name action filename rq_job
                 | None => mret None
                 end;
      match answered with
      | Some response => mret response
      | None => export_enqueue db_instance rq_id request format_name callback
      end
  end.

Definition _import_project_dataset (request : Request) (rq_id : string)
    (rq_func : RqFunc) (pk format_name : string) : M HttpResult :=
  match by_display_name (get_import_formats env) !! format_name with
  | None => raise (ValidationError ("Unknown input format '" +:+ format_name +:+ "'"))
  | Some format_desc =>
    if negb (ENABLED format_desc) then mret (Response HTTP_405_METHOD_NOT_ALLOWED DNone)
    else
      rq_job ← fetch_job rq_id;
      match rq_job with
      | None =>
          _ ← validated_file request "dataset_file";
          '(fd, filename) ← mkstemp (tmpdir env) ("cvat_" +:+ pk);
          enqueue_call rq_func [VStr pk; VStr filename; VStr format_name] rq_id
            (<["tmp_file_descriptor" := VInt fd]> {["tmp_file" := VStr filename]})
            None None;;
          mret (Response HTTP_202_ACCEPTED DNone)
      | Some _ =>
          mret (Response HTTP_409_CONFLICT (DStr "Import job already exists"))
      end
  end.

End WithEnv.
End Jobs.

(** ** [class ServerViewSet] *)
Module ServerViewSet.
Import PyStr Rt Cfg.

Section WithEnv.
Context (env : Env).

(** The directory [share] goes on to look at. *)
Definition share_directory (param : string) : string :=
  let param := if startswith "/" param then tail param else param in
  PosixPath.abspath (cwd env) (PosixPath.join (SHARE_ROOT env) param).

(** [share(request)] *)
Definition share (request : Request) : M HttpResult :=
  let param := query_get request "directory" "/" in
  let param := if startswith "/" param then tail param else param in
  let directory := PosixPath.abspath (cwd env) (PosixPath.join (SHARE_ROOT env) param) in
  is_dir ← isdir directory;
  if (startswith (SHARE_ROOT env) directory && is_dir)%bool then
    content ← scandir directory;
    let entry (e : string * Node) :=
      match e.2 with
      | RegularFile => Some (e.1, "REG")
      | Directory => Some (e.1, "DIR")
      | Special => None
      end in
    match FileInfoSerializer env (omap entry content) with
    | Some serialized => mret (Response HTTP_200_OK (DFiles serialized))
    | None => raise (ValidationError "FileInfoSerializer")
    end
  else
    mret (Response HTTP_400_BAD_REQUEST (DStr (param +:+ " is an invalid directory"))).

End WithEnv.
End ServerViewSet.

(** ** [class ProjectViewSet] *)
Module ProjectViewSet.
Import PyStr Rt Cfg Jobs.

Section WithEnv.
Context (env : Env).

(** All callers name the queue ["default"], the one queue of [World]. *)
Definition _get_rq_response (queue job_id : string) : M (gmap string Value) :=
  job ← fetch_job job_id;
  mret (match job with
        | None => {["state" := VStr "Finished"]}
        | Some job =>
            if is_finished job then {["state" := VStr "Finished"]}
            else if is_queued job then {["state" := VStr "Queued"]}
            else if is_failed job then
              <["message" := of_opt_str (job_exc_info job)]> {["state" := VStr "Failed"]}
            else
              let response : gmap string Value := {["state" := VStr "Started"]} in
              let response :=
                <["message" := default (VStr "") (job_meta job !! "status")]> response in
              <["progress" := default (VFloat 0 1) (job_meta job !! "progress")]> response
        end).

(** [dataset(self, request, pk)], after [get_object] has found
    [db_project] and let the user through. *)
Definition dataset (db_project : Project) (request : Request) (pk : string) : M HttpResult :=
  if String.eqb (method request) "POST" then
    let format_name := query_get request "format" "" in
    _import_project_dataset env request ("/api/project/" +:+ pk +:+ "/dataset_import")
      import_dataset_as_project pk format_name
  else
    let action := lower (query_get request "action" "") in
    if String.eqb action "import_status" then
      rq_job ← fetch_job ("/api/project/" +:+ pk +:+ "/dataset_import");
      match rq_job with
      | None => mret (Response HTTP_404_NOT_FOUND DNone)
      | Some rq_job =>
          if is_finished rq_job then
            close_and_remove_tmp rq_job;;
            delete_job ("/api/project/" +:+ pk +:+ "/dataset_import");;
            mret (Response HTTP_201_CREATED DNone)
          else if is_failed rq_job then
            close_and_remove_tmp rq_job;;
            delete_job ("/api/project/" +:+ pk +:+ "/dataset_import");;
            mret (Response HTTP_500_INTERNAL_SERVER_ERROR (DStr (str (job_exc_info rq_job))))
          else
            status ← _get_rq_response "default" ("/api/project/" +:+ pk +:+ "/dataset_import");
            mret (Response HTTP_202_ACCEPTED (DDict status))
      end
    else
      let format_name := query_get request "format" "" in
      _export_annotations env (IsProject db_project)
        ("/api/project/" +:+ pk +:+ "/dataset/" +:+ format_name)
        request format_name action export_project_as_dataset
        (lower (query_get request "filename" "")).

(** [annotations(self, request, pk)] *)
Definition annotations (db_project : Project) (request : Request) (pk : string) : M HttpResult :=
  match query_params request !! "format" with
  | Some format_name =>
      if truthy format_name then
        _export_annotations env (IsProject db_project)
          ("/api/projects/" +:+ pk +:+ "/annotations/" +:+ format_name)
          request format_name (lower (query_get request "action" ""))
          export_project_annotations (lower (query_get request "filename" ""))
      else mret (Response HTTP_400_BAD_REQUEST (DStr "Format is not specified"))
  | None => mret (Response HTTP_400_BAD_REQUEST (DStr "Format is not specified"))
  end.

End WithEnv.
End ProjectViewSet.

(** ** [class DataChunkGetter] *)
Module DataChunkGetter.
Import PyStr Rt.

(** [FrameProvider.Quality] *)
Inductive Quality := COMPRESSED | ORIGINAL.

(** The attributes [__init__] sets. *)
Record t := {
  type : string;
  number : option Z;
  quality : Quality;
  dimension : string;
}.

(** What the getter goes on to read from the frame provider and send,
    once its checks have passed. *)
Inductive Served :=
| ChunkFromCache (number : Z) (quality : Quality)
| ChunkFile (number : Z) (quality : Quality)
| Frame (number : Z) (quality : Quality)
| Preview
| ContextImage (number : Z)
| UnknownType (status : Z) (detail : string).

Section WithRuntime.
(** [int(s)] of Python on a string, [None] for a [ValueError];
    [settings.USE_CACHE]; [FrameProvider.get_chunk_number]. *)
Context (int : string -> option Z) (USE_CACHE : bool) (get_chunk_number : Z -> Z).

Definition possible_data_type_values := ["chunk"; "frame"; "preview"; "context_image"].
Definition possible_quality_values := ["compressed"; "original"].

Definition mem (s : string) (l : list string) : bool := existsb (String.eqb s) l.

Definition __init__ (data_type data_num : option string) (data_quality : string)
    (task_dim : string) : Res t :=
  let ty := default "" data_type in
  let num := default "" data_num in
  if (negb (truthy ty) || negb (mem ty possible_data_type_values))%bool then
    Raise (ValidationError "Data type not specified or has wrong value")
  else if ((String.eqb ty "chunk" || String.eqb ty "frame") && negb (truthy num))%bool then
    Raise (ValidationError "Number is not specified")
  else if ((String.eqb ty "chunk" || String.eqb ty "frame")
           && negb (mem data_quality possible_quality_values))%bool then
    Raise (ValidationError "Wrong quality value")
  else
    let q := if String.eqb data_quality "compressed" then COMPRESSED else ORIGINAL in
    if truthy num then
      match int num with
      | Some n => Ok {| type := ty; number := Some n; quality := q; dimension := task_dim |}
      | None => Raise ValueError
      end
    else Ok {| type := ty; number := None; quality := q; dimension := task_dim |}.

(** [not (lo <= self.number <= hi)]; comparing an integer with [None]
    is a [TypeError]. *)
Definition out_of_range (lo : Z) (number : option Z) (hi : Z) : Res bool :=
  match number with
  | None => Raise TypeError
  | Some n => Ok (negb ((lo <=? n) && (n <=? hi)))
  end.

Definition range (lo hi : Z) : string :=
  "[" +:+ pretty lo +:+ ", " +:+ pretty hi +:+ "] range".

(** [__call__(self, request, start, stop, db_data)]; [db_data] is [None]
    when the task has no data, and otherwise says whether its storage
    method is the cache. *)
Definition __call__ (self : t) (start stop : Z) (db_data : option bool) : Res Served :=
  match db_data with
  | None => Raise (NotFound "Cannot find requested data")
  | Some storage_is_cache =>
      if String.eqb (type self) "chunk" then
        let start_chunk := get_chunk_number start in
        let stop_chunk := get_chunk_number stop in
        match out_of_range start_chunk (number self) stop_chunk with
        | Raise e => Raise e
        | Ok true =>
            Raise (ValidationError ("The chunk number should be in " +:+ range start_chunk stop_chunk))
        | Ok false =>
            match number self with
            | Some n =>
                if (USE_CACHE && storage_is_cache)%bool
                then Ok (ChunkFromCache n (quality self))
                else Ok (ChunkFile n (quality self))
            | None => Raise TypeError
            end
        end
      else if String.eqb (type self) "frame" then
        match out_of_range start (number self) stop with
        | Raise e => Raise e
        | Ok true =>
            Raise (ValidationError ("The frame number should be in " +:+ range start stop))
        | Ok false =>
            match number self with
            | Some n => Ok (Frame n (quality self))
            | None => Raise TypeError
            end
        end
      else if String.eqb (type self) "preview" then Ok Preview
      else if String.eqb (type self) "context_image" then
        match out_of_range start (number self) stop with
        | Raise e => Raise e
        | Ok true =>
            Raise (ValidationError ("The frame number should be in " +:+ range start stop))
        | Ok false =>
            match number self with
            | Some n => Ok (ContextImage n)
            | None => Raise TypeError
            end
        end
      else Ok (UnknownType HTTP_400_BAD_REQUEST ("unknown data type " +:+ type self +:+ "."))
  end.

(** [data(self, request, pk)] of the task and job view sets on a [GET]:
    the getter is built from the query and called at once. *)
Definition serve (data_type data_num : option string) (data_quality task_dim : string)
    (start stop : Z) (db_data : option bool) : Res Served :=
  match __init__ data_type data_num data_quality task_dim with
  | Raise e => Raise e
  | Ok data_getter => __call__ data_getter start stop db_data
  end.

End WithRuntime.
End DataChunkGetter.

(** ** The rows and directories [perform_destroy] works on *)
Module Db.
Import Rt.

Record TaskRow := {
  row_data : option Z;              (* [data_id] *)
  row_project : option Z;           (* [project_id] *)
}.

Record DataRow := {
  data_size : Z;
}.

Record Store := {
  tasks : gmap Z TaskRow;
  datas : gmap Z DataRow;
  projects : gmap Z Z;              (* [updated_date] by project id *)
  files : gmap string Node;
  today : Z;
}.

(** The task object a view holds: its fields stay as they were read,
    whatever happens to its row. *)
Record TaskObj := {
  pk : Z;
  obj_data : option Z;
  obj_project : option Z;
}.

Definition set_tasks (f : gmap Z TaskRow -> gmap Z TaskRow) (s : Store) : Store :=
  {| tasks := f (tasks s); datas := datas s; projects := projects s;
     files := files s; today := today s |}.
Definition set_datas (f : gmap Z DataRow -> gmap Z DataRow) (s : Store) : Store :=
  {| tasks := tasks s; datas := f (datas s); projects := projects s;
     files := files s; today := today s |}.
Definition set_projects (f : gmap Z Z -> gmap Z Z) (s : Store) : Store :=
  {| tasks := tasks s; datas := datas s; projects := f (projects s);
     files := files s; today := today s |}.
Definition set_files (f : gmap string Node -> gmap string Node) (s : Store) : Store :=
  {| tasks := tasks s; datas := datas s; projects := projects s;
     files := f (files s); today := today s |}.

(** [shutil.rmtree(path, ignore_errors=True)]: the directory and all
    below it are gone, and nothing is raised. *)
Definition rmtree (path : string) (s : Store) : Store :=
  set_files (filter (fun kv => PosixPath.under path kv.1 = false)) s.

(** [db_data.tasks.all()]: the rows of the tasks that refer to the data. *)
Definition data_tasks (d : Z) (s : Store) : gmap Z TaskRow :=
  filter (fun kv => row_data kv.2 = Some d) (tasks s).

(** [db_project.save()] stamps the project. *)
Definition save_project (p : Z) (s : Store) : Store :=
  set_projects (insert p (today s)) s.

End Db.

(** ** [class TaskViewSet] *)
Module TaskViewSet.
Import PyStr Rt Cfg Jobs.

Section WithEnv.
Context (env : Env).

Definition _get_rq_response (queue job_id : string) : M (gmap string Value) :=
  job ← fetch_job job_id;
  mret (match job with
        | None => {["state" := VStr "Finished"]}
        | Some job =>
            if is_finished job then {["state" := VStr "Finished"]}
            else if is_queued job then {["state" := VStr "Queued"]}
            else if is_failed job then
              <["message" := of_opt_str (job_exc_info job)]> {["state" := VStr "Failed"]}
            else
              let response : gmap string Value := {["state" := VStr "Started"]} in
              let response :=
                match job_meta job !! "status" with
                | Some status => <["message" := status]> response
                | None => response
                end in
              <["progress" := default (VFloat 0 1) (job_meta job !! "task_progress")]> response
        end).

(** [status(self, request, pk)] *)
Definition status (request : Request) (pk : string) : M HttpResult :=
  response ← _get_rq_response "default" ("/api/tasks/" +:+ pk);
  match RqStatusSerializer env response with
  | Some serialized => mret (Response HTTP_200_OK (DDict serialized))
  | None => raise (ValidationError "RqStatusSerializer")
  end.

(** [annotations(self, request, pk)]: the two branches that use the queue;
    the others go to [dm.task] directly. *)
Definition annotations (db_task : Task) (request : Request) (pk : string) : M HttpResult :=
  let format_name := default "" (query_params request !! "format") in
  if (String.eqb (method request) "GET" && truthy format_name)%bool then
    _export_annotations env (IsTask db_task)
      ("/api/tasks/" +:+ pk +:+ "/annotations/" +:+ format_name)
      request format_name (lower (query_get request "action" ""))
      export_task_annotations (lower (query_get request "filename" ""))
  else if (String.eqb (method request) "PUT" && truthy format_name)%bool then
    _import_annotations env request
      (user request +:+ "@/api/tasks/" +:+ pk +:+ "/annotations/upload")
      import_task_annotations pk format_name
  else dm_task_direct env "tasks" request pk.

(** [dataset_export(self, request, pk)] *)
Definition dataset_export (db_task : Task) (request : Request) (pk : string) : M HttpResult :=
  let format_name := query_get request "format" "" in
  _export_annotations env (IsTask db_task)
    ("/api/tasks/" +:+ pk +:+ "/dataset/" +:+ format_name)
    request format_name (lower (query_get request "action" ""))
    export_task_as_dataset (lower (query_get request "filename" "")).

(** [get_task_dirname] and [get_data_dirname] of the models. *)
Context (get_task_dirname get_data_dirname : Z -> string).

(** [perform_destroy(self, instance)] *)
Definition perform_destroy (instance : Db.TaskObj) (s : Db.Store) : Res unit * Db.Store :=
  let task_dirname := get_task_dirname (Db.pk instance) in
  let s := Db.set_tasks (delete (Db.pk instance)) s in
  let s := Db.rmtree task_dirname s in
  let after_data :=
    match Db.obj_data instance with
    | None => (Ok tt, s)
    | Some d =>
        match Db.datas s !! d with
        | None => (Raise DoesNotExist, s)
        | Some _ =>
            if bool_decide (Db.data_tasks d s = ∅) then
              let s := Db.rmtree (get_data_dirname d) s in
              (Ok tt, Db.set_datas (delete d) s)
            else (Ok tt, s)
        end
    end in
  match after_data with
  | (Raise e, s) => (Raise e, s)
  | (Ok _, s) =>
      match Db.obj_project instance with
      | Some p => (Ok tt, Db.save_project p s)
      | None => (Ok tt, s)
      end
  end.

End WithEnv.
End TaskViewSet.

(** ** [class JobViewSet] *)
Module JobViewSet.
Import PyStr Rt Cfg Jobs.

Section WithEnv.
Context (env : Env).

(** [annotations(self, request, pk)]: the upload through the queue; the
    other branches go to [dm.task] directly. *)
Definition annotations (request : Request) (pk : string) : M HttpResult :=
  let format_name := query_get request "format" "" in
  if (String.eqb (method request) "PUT" && truthy format_name)%bool then
    _import_annotations env request
      (user request +:+ "@/api/jobs/" +:+ pk +:+ "/annotations/upload")
      import_job_annotations pk format_name
  else dm_task_direct env "jobs" request pk.

End WithEnv.
End JobViewSet.

(** ** [rq_handler]: what the worker does with a failed job *)
Module RqHandler.
Import PyStr Rt.

(** An exception as [traceback.format_exception_only] looks at it: the
    module and the qualified name of its class, and [str] of its value. *)
Record Raised := {
  exc_module : string;
  exc_qualname : string;
  exc_str : string;
}.

(** ["".join(traceback.format_exception_only(exc_type, exc_value))], for an
    exception that is not a [SyntaxError]. *)
Definition format_exception_only (e : Raised) : string :=
  let stype :=
    if (String.eqb (exc_module e) "__main__" || String.eqb (exc_module e) "builtins")%bool
    then exc_qualname e
    else exc_module e +:+ "." +:+ exc_qualname e in
  if truthy (exc_str e) then stype +:+ ": " +:+ exc_str e +:+ String "010" EmptyString
  else stype +:+ String "010" EmptyString.

Definition with_exc_info (x : option string) (j : RqJob) : RqJob :=
  {| job_status := job_status j; job_meta := job_meta j; job_exc_info := x;
     job_return_value := job_return_value j; job_func := job_func j;
     job_args := job_args j; job_result_ttl := job_result_ttl j;
     job_failure_ttl := job_failure_ttl j |}.

(** [x in l] for strings *)
Definition mem (x : string) (l : list string) : bool := existsb (String.eqb x) l.

Section WithTask.
(** [task.rq_handler] of the engine, for the jobs of tasks. *)
Context (task_rq_handler : string -> RqJob -> Raised -> M bool).

(** [rq_handler(job, exc_type, exc_value, tb)]; [job.save()] writes the job
    back under its id. The handler runs in the worker, so the trace of the
    views is not touched. *)
Definition rq_handler (job_id : string) (job : RqJob) (e : Raised) : M bool :=
  let job := with_exc_info (Some (format_exception_only e)) job in
  modify (set_rq (insert job_id job));;
  if mem "tasks" (split_slash job_id) then task_rq_handler job_id job e
  else mret true.

End WithTask.
End RqHandler.

(** ** The [data] actions of tasks and jobs, on a GET *)
Module DataViews.
Import PyStr Rt.

(** [models.Data] as the getter reads it. *)
Record DataObj := {
  start_frame : Z;
  stop_frame : Z;
  storage_method_is_cache : bool;
}.

(** A job's segment. *)
Record Segment := {
  segment_start_frame : Z;
  segment_stop_frame : Z;
}.

(** What the action ends in: the result of the getter, or the
    [AttributeError] of reading an attribute of [None]. *)
Inductive Outcome :=
| Got (r : Res DataChunkGetter.Served)
| AttributeError.

Section WithRuntime.
Context (int : string -> option Z) (USE_CACHE : bool) (get_chunk_number : Z -> Z).

(** The [else] branch of [TaskViewSet.data]: the getter is built first, then
    the arguments of its call are read off [db_task.data]. *)
Definition task_data (query_params : gmap string string) (dimension : string)
    (db_data : option DataObj) : Outcome :=
  let data_type := query_params !! "type" in
  let data_num := query_params !! "number" in
  let data_quality := default "compressed" (query_params !! "quality") in
  match DataChunkGetter.__init__ int data_type data_num data_quality dimension with
  | Raise e => Got (Raise e)
  | Ok data_getter =>
      match db_data with
      | None => AttributeError
      | Some d =>
          Got (DataChunkGetter.__call__ USE_CACHE get_chunk_number data_getter
                 (start_frame d) (stop_frame d) (Some (storage_method_is_cache d)))
      end
  end.

(** [JobViewSet.data]: the range is the one of the job's segment. *)
Definition job_data (query_params : gmap string string) (dimension : string)
    (segment : Segment) (db_data : option DataObj) : Outcome :=
  let data_type := query_params !! "type" in
  let data_num := query_params !! "number" in
  let data_quality := default "compressed" (query_params !! "quality") in
  match DataChunkGetter.__init__ int data_type data_num data_quality dimension with
  | Raise e => Got (Raise e)
  | Ok data_getter =>
      Got (DataChunkGetter.__call__ USE_CACHE get_chunk_number data_getter
             (segment_start_frame segment) (segment_stop_frame segment)
             (storage_method_is_cache <$> db_data))
  end.

End WithRuntime.
End DataViews.

(** ** [class UserViewSet] *)
Module UserViewSet.
Import PyStr Rt.

Inductive SerializerClass := UserSerializer | BasicUserSerializer.

(** [rest_framework.permissions.SAFE_METHODS] *)
Definition SAFE_METHODS : list string := ["GET"; "HEAD"; "OPTIONS"].

(** [request.user] *)
Record User := {
  is_staff : bool;
  id : option Z;                     (* [None] for the anonymous user *)
}.

Section WithRuntime.
(** [int(s)] of Python on a string, [None] for a [ValueError]. *)
Context (int : string -> option Z).

(** [get_serializer_class(self)]; [kwargs_pk] is [self.kwargs.get("pk")]. *)
Definition get_serializer_class (user : User) (kwargs_pk : option string)
    (action method : string) : Res SerializerClass :=
  if is_staff user then Ok UserSerializer
  else
    match (match kwargs_pk with Some s => int s | None => Some 0 end) with
    | None => Raise ValueError
    | Some pk =>
        let is_self := (bool_decide (Some pk = id user) || String.eqb action "self")%bool in
        if (is_self && existsb (String.eqb method) SAFE_METHODS)%bool
        then Ok UserSerializer
        else Ok BasicUserSerializer
    end.

End WithRuntime.
End UserViewSet.

(** ** [ServerViewSet.plugins] *)
Module Plugins.
Import PyStr Rt.

(** [distutils.util.strtobool] *)
Definition strtobool (val : string) : Res bool :=
  let val := lower val in
  if existsb (String.eqb val) ["y"; "yes"; "t"; "true"; "on"; "1"] then Ok true
  else if existsb (String.eqb val) ["n"; "no"; "f"; "false"; "off"; "0"] then Ok false
  else Raise ValueError.

(** [plugins(request)]: the dictionary of the response, given the
    environment of the process and the installed applications. *)
Definition plugins (environ : gmap string string) (is_installed : string -> bool)
    : Res (gmap string bool) :=
  let response : gmap string bool :=
    <["PREDICT" := is_installed "cvat.apps.training"]>
      (<["MODELS" := false]>
         (<["ANALYTICS" := false]>
            {["GIT_INTEGRATION" := is_installed "cvat.apps.dataset_repo"]})) in
  match strtobool (default "0" (environ !! "CVAT_ANALYTICS")) with
  | Raise e => Raise e
  | Ok analytics =>
      let response := if analytics then <["ANALYTICS" := true]> response else response in
      match strtobool (default "0" (environ !! "CVAT_SERVERLESS")) with
      | Raise e => Raise e
      | Ok serverless =>
          Ok (if serverless then <["MODELS" := true]> response else response)
      end
  end.

End Plugins.

(** ** [class CloudStorageViewSet] *)
Module CloudStorageViewSet.
Import PyStr Rt.

(** A row of [CloudStorageModel]. *)
Record Storage := {
  storage_id : Z;
  provider_type : string;
}.

Section WithModels.
(** [CloudProviderChoice.list()] and the filter of [CloudStoragePermission]. *)
Context (provider_choices : list string) (perm_filter : list Storage -> list Storage).

(** [get_queryset(self)] over the rows [queryset]. *)
Definition get_queryset (queryset : list Storage) (action : string)
    (query_params : gmap string string) : Res (list Storage) :=
  let queryset := if String.eqb action "list" then perm_filter queryset else queryset in
  match query_params !! "provider_type" with
  | Some provider =>
      if truthy provider then
        if existsb (String.eqb provider) provider_choices
        then Ok (filter (fun st => provider_type st = provider) queryset)
        else Raise (ValidationError "Unsupported type of cloud provider")
      else Ok queryset
  | None => Ok queryset
  end.

End WithModels.
End CloudStorageViewSet.

(** ** A small server to run the views on *)
Module Demo.
Import Rt Cfg.

Definition formats : list Format :=
  [ {| DISPLAY_NAME := "CVAT 1.1"; ENABLED := true |};
    {| DISPLAY_NAME := "COCO 1.0"; ENABLED := false |} ].

Definition env : Env :=
  {| SHARE_ROOT := "/home/django/share";
     cwd := "/home/django";
     tmpdir := "/tmp";
     get_export_formats := formats;
     get_import_formats := formats;
     PROJECT_CACHE_TTL := 36000;
     TASK_CACHE_TTL := 36000;
     import_error_prefix := "cvat.apps.dataset_manager.bindings.CvatImportError";
     av_scan_paths := fun _ => None;
     strftime := fun t => pretty t;
     splitext_ext := fun _ => ".zip";
     FileInfoSerializer := Some;
     RqStatusSerializer := Some;
     dm_task_direct := fun _ _ _ => mret (Response HTTP_200_OK DNone) |}.

Definition job (s : JobStatus) (meta : gmap string Value)
    (exc_info return_value : option string) : RqJob :=
  {| job_status := s; job_meta := meta; job_exc_info := exc_info;
     job_return_value := return_value; job_func := export_task_annotations;
     job_args := []; job_result_ttl := None; job_failure_ttl := None |}.

Definition world (jobs : gmap string RqJob) (files : gmap string Node)
    (open_fds : gset Z) : World :=
  {| rq := jobs; fs := files; fds := open_fds; now := 100;
     tmp_supply := [(7, "abc123")]; trace := [] |}.

Definition request (m : string) (q : gmap string string) : Request :=
  {| method := m; query_params := q; user := "admin1"; scheme := "http";
     host := Some "localhost:8080"; data := ∅ |}.

Definition task : Task :=
  {| task_id := 1; task_name := "t"; task_updated_date := 10 |}.

(** A task whose creation is under way. *)
Definition started_world : World :=
  world {[ "/api/tasks/1" :=
             job STARTED (<["task_progress" := VFloat 1 2]>
                            (<["progress" := VFloat 1 4]> {["status" := VStr "Half way"]}))
                 None None ]} ∅ ∅.

Definition project : Project :=
  {| project_id := 3; project_name := "p"; project_updated_date := 10;
     project_tasks := [task] |}.

(** The temporary file and descriptor of an upload for project 3. *)
Definition upload_meta : gmap string Value :=
  <["tmp_file_descriptor" := VInt 5]> {["tmp_file" := VStr "/tmp/cvat_3xyz"]}.

(** Project 3 with an import job in state [s] and exception text [exc]. *)
Definition import_world (s : JobStatus) (exc : option string) : World :=
  world {[ "/api/project/3/dataset_import" := job s upload_meta exc None ]}
        {[ "/tmp/cvat_3xyz" := RegularFile ]} {[ 5 ]}.

(** Task 1 with an export job cached under its id: requested at
    [request_time], in state [s], with result file [file] and exception
    text [exc]. *)
Definition export_id : string := "/api/tasks/1/annotations/CVAT 1.1".

Definition export_job (s : JobStatus) (request_time : Z) (exc file : option string) : RqJob :=
  job s {["request_time" := VTime request_time]} exc file.

Definition export_world (j : RqJob) (files : gmap string Node) : World :=
  world {[ export_id := j ]} files ∅.

(** Task 1 with an annotation upload by admin1 in state [s]. *)
Definition upload_id : string := "admin1@/api/tasks/1/annotations/upload".

Definition upload_world (s : JobStatus) (exc : option string) : World :=
  world {[ upload_id := job s upload_meta exc None ]}
        {[ "/tmp/cvat_3xyz" := RegularFile ]} {[ 5 ]}.

(** Where the models keep the directories of tasks and of data. *)
Definition get_task_dirname (id : Z) : string := "/data/tasks/" +:+ pretty id.
Definition get_data_dirname (id : Z) : string := "/data/data/" +:+ pretty id.

(** Task 1 is the only task of data 7. *)
Definition store : Db.Store :=
  {| Db.tasks := {[ 1 := {| Db.row_data := Some 7; Db.row_project := None |} ]};
     Db.datas := {[ 7 := {| Db.data_size := 3 |} ]};
     Db.projects := ∅;
     Db.files := <["/data/tasks/1" := Directory]>
                   (<["/data/tasks/1/logs" := Directory]>
                      (<["/data/data/7" := Directory]>
                         {["/data/data/7/raw/0.png" := RegularFile]}));
     Db.today := 100 |}.

Definition task_obj : Db.TaskObj :=
  {| Db.pk := 1; Db.obj_data := Some 7; Db.obj_project := None |}.

(** The share of the server, and a directory next to it whose name
    starts with the name of the share. *)
Definition share_world : World :=
  world ∅
    (<["/home/django/share" := Directory]>
       (<["/home/django/share/images" := Directory]>
          (<["/home/django/share_private" := Directory]>
             {["/home/django/share_private/secret.txt" := RegularFile]})))
    ∅.

(** admin1 uploads annotations for a task in the format CVAT 1.1. *)
Definition upload_request : Request :=
  {| method := "PUT"; query_params := {["format" := "CVAT 1.1"]}; user := "admin1";
     scheme := "http"; host := Some "localhost:8080";
     data := {["annotation_file" := ["<annotations/>"]]} |}.

(** A server whose virus scan rejects every upload. *)
Definition scanning_env : Env :=
  {| SHARE_ROOT := SHARE_ROOT env; cwd := cwd env; tmpdir := tmpdir env;
     get_export_formats := formats; get_import_formats := formats;
     PROJECT_CACHE_TTL := 36000; TASK_CACHE_TTL := 36000;
     import_error_prefix := import_error_prefix env;
     av_scan_paths := fun _ => Some "Infected file";
     strftime := strftime env; splitext_ext := splitext_ext env;
     FileInfoSerializer := Some; RqStatusSerializer := Some;
     dm_task_direct := dm_task_direct env |}.

(** [int] on the strings of digits. *)
Fixpoint digits (acc : Z) (s : string) : option Z :=
  match s with
  | EmptyString => Some acc
  | String c s' =>
      let n := Z.of_nat (nat_of_ascii c) in
      if (48 <=? n) && (n <=? 57) then digits (10 * acc + (n - 48)) s' else None
  end.

Definition int (s : string) : option Z :=
  match s with
  | EmptyString => None
  | _ => digits 0 s
  end.

(** Chunks of 36 frames. *)
Definition get_chunk_number (frame : Z) : Z := frame / 36.

(** admin1 posts a dataset for a project in the format CVAT 1.1. *)
Definition dataset_post : Request :=
  {| method := "POST"; query_params := {["format" := "CVAT 1.1"]}; user := "admin1";
     scheme := "http"; host := Some "localhost:8080";
     data := {["dataset_file" := ["PK"]]} |}.

End Demo.

(** ** Names for what the statements below talk about *)
Module Ids.
Import PyStr Rt.

(** The id under which [ProjectViewSet.dataset] imports a dataset. *)
Definition project_import_id (pk : string) : string :=
  "/api/project/" +:+ pk +:+ "/dataset_import".

(** The job an event of the trace is about. *)
Definition event_id (e : RqEvent) : string :=
  match e with
  | EvFetch job_id | EvEnqueue job_id _ | EvSaveMeta job_id
  | EvCancel job_id | EvDelete job_id => job_id
  end.

Definition is_enqueue (e : RqEvent) : bool :=
  match e with EvEnqueue _ _ => true | _ => false end.

(** The job carries the temporary file of its upload: the metadata name a
    descriptor that is open and a regular file that is there. *)
Definition has_tmp_file (j : RqJob) (w : World) (fd : Z) (tmp_file : string) : Prop :=
  job_meta j !! "tmp_file_descriptor" = Some (VInt fd)
  /\ fd ∈ fds w
  /\ job_meta j !! "tmp_file" = Some (VStr tmp_file)
  /\ fs w !! tmp_file = Some RegularFile.

(** What is before and after the first slash of a string. *)
Fixpoint split_first (s : string) : option (string * string) :=
  match s with
  | EmptyString => None
  | String c s' =>
      if Ascii.eqb c "/" then Some (EmptyString, s')
      else match split_first s' with
           | Some (a, b) => Some (String c a, b)
           | None => None
           end
  end.

(** Modelled on the words of the specification: a job identifier is a
    string [/api/<resource>/<id>/<operation>], with a resource and an id free
    of slashes and none of the three parts empty. *)
Definition is_job_id_form (s : string) : bool :=
  match strip_prefix "/api/" s with
  | Some rest =>
      match split_first rest with
      | Some (resource, rest) =>
          match split_first rest with
          | Some (id, operation) => (truthy resource && truthy id && truthy operation)%bool
          | None => false
          end
      | None => false
      end
  | None => false
  end.

(** A primary key as the router hands it over: not empty, no slash. *)
Definition valid_pk (pk : string) : Prop :=
  truthy pk = true /\ has_slash pk = false.

(** Whatever [m] does to the queue, it does to the job [job_id]. *)
Definition touches_only {A} (job_id : string) (m : M A) : Prop :=
  forall w r w',
    m w = (r, w') ->
    exists events,
      trace w' = (trace w ++ events)%list
      /\ Forall (fun e => event_id e = job_id) events.

(** A path component that is a name: no slash in it, and not one of the
    empty, [.] and [..]. *)
Definition plain_component (c : string) : Prop :=
  has_slash c = false /\ c <> "" /\ c <> "." /\ c <> "..".


(** [s.isascii()]: on such a string [str.lower] changes the letters A to Z
    and nothing else. *)
Definition is_ascii (s : string) : bool :=
  forallb (fun c => Nat.ltb (nat_of_ascii c) 128) (list_ascii_of_string s).

End Ids.

(** * Properties of the views *)

Lemma Run_bind_ok {A B} (m : Rt.M A) (k : A -> Rt.M B) (w w' : Rt.World) (a : A) :
  m w = (Rt.Ok a, w') -> (m ≫= k) w = k a w'.
Proof. intros H. unfold mbind, Rt.M_bind, Rt.bind. by rewrite H. Qed.

(** Unfolds the monad and the queue primitives of a goal. *)
Ltac run_view :=
  unfold mbind, Rt.M_bind, Rt.bind, mret, Rt.M_ret, Rt.ret, Rt.raise,
    Rt.fetch_job, Rt.delete_job, Rt.cancel, Rt.modify, Rt.enqueue_call,
    Rt.save_meta, Rt.localtime_now, Rt.exists_, Rt.isdir in *;
  cbn beta iota zeta.

Import PyStr Rt Cfg Jobs Ids.

(** ** Polling a job: [_get_rq_response] *)

(** C5. Both [_get_rq_response] helpers only read the job (the world after
    the call is the world before it with the fetch noted in the trace) and
    report: Finished for no job or a finished one, Queued for a queued one,
    Failed with the exception text for a failed one, and otherwise Started
    with the status message and the progress of the job's metadata. *)
Theorem get_rq_response_relays (queue job_id : string) (w : World) :
  exists project_response task_response,
    ProjectViewSet._get_rq_response queue job_id w
      = (Ok project_response, log (EvFetch job_id) w)
    /\ TaskViewSet._get_rq_response queue job_id w
      = (Ok task_response, log (EvFetch job_id) w)
    /\ rq (log (EvFetch job_id) w) = rq w
    /\ (rq w !! job_id = None ->
          project_response = {["state" := VStr "Finished"]}
          /\ task_response = {["state" := VStr "Finished"]})
    /\ (forall job, rq w !! job_id = Some job ->
          match job_status job with
          | FINISHED =>
              project_response = {["state" := VStr "Finished"]}
              /\ task_response = {["state" := VStr "Finished"]}
          | QUEUED =>
              project_response = {["state" := VStr "Queued"]}
              /\ task_response = {["state" := VStr "Queued"]}
          | FAILED =>
              project_response
                = <["message" := of_opt_str (job_exc_info job)]> {["state" := VStr "Failed"]}
              /\ task_response
                = <["message" := of_opt_str (job_exc_info job)]> {["state" := VStr "Failed"]}
          | _ =>
              project_response !! "state" = Some (VStr "Started")
              /\ project_response !! "message"
                   = Some (default (VStr "") (job_meta job !! "status"))
              /\ project_response !! "progress"
                   = Some (default (VFloat 0 1) (job_meta job !! "progress"))
              /\ task_response !! "state" = Some (VStr "Started")
              /\ task_response !! "message" = job_meta job !! "status"
              /\ task_response !! "progress"
                   = Some (default (VFloat 0 1) (job_meta job !! "task_progress"))
          end).
Proof.
  unfold ProjectViewSet._get_rq_response, TaskViewSet._get_rq_response. run_view.
  do 2 eexists. split; [reflexivity|]. split; [reflexivity|]. split; [reflexivity|].
  split.
  - intros ->. by split.
  - intros job ->. unfold is_finished, is_queued, is_failed.
    destruct (job_status job); try (by split);
      repeat split; try (by simplify_map_eq);
      destruct (job_meta job !! "status") eqn:E; by simplify_map_eq.
Qed.

Lemma get_rq_response_relays_witness :
  exists task_response,
    TaskViewSet._get_rq_response "default" "/api/tasks/1" Demo.started_world
      = (Ok task_response, log (EvFetch "/api/tasks/1") Demo.started_world)
    /\ task_response !! "state" = Some (VStr "Started")
    /\ task_response !! "message" = Some (VStr "Half way")
    /\ task_response !! "progress" = Some (VFloat 1 2).
Proof.
  destruct (get_rq_response_relays "default" "/api/tasks/1" Demo.started_world)
    as (pr & tr & _ & Ht & _ & _ & Hjob).
  exists tr. split; [exact Ht|].
  specialize (Hjob _ eq_refl). cbn in Hjob.
  destruct Hjob as (_ & _ & _ & Hs & Hm & Hp).
  split; [exact Hs|]. split; [rewrite Hm | rewrite Hp]; reflexivity.
Defined.

(** ** The format gate of exports and imports *)

Lemma by_display_name_from (formats : list Format) (d : gmap string Format) (name : string) :
  fold_left (fun d f => <[DISPLAY_NAME f := f]> d) formats d !! name = None
  <-> d !! name = None /\ Forall (fun f => DISPLAY_NAME f <> name) formats.
Proof.
  revert d. induction formats as [|f formats IH]; intros d; cbn.
  - split; [intros H; split; [exact H | constructor] | intros [H _]; exact H].
  - rewrite IH. split.
    + intros [Hd Hall]. apply lookup_insert_None in Hd as [Hd Hne].
      split; [exact Hd | by constructor].
    + intros [Hd Hall]. inversion Hall; subst.
      split; [by apply lookup_insert_None | assumption].
Qed.

(** A name is missing from the dictionary of formats exactly when no
    registered format bears it. *)
Lemma by_display_name_None (formats : list Format) (name : string) :
  by_display_name formats !! name = None
  <-> Forall (fun f => DISPLAY_NAME f <> name) formats.
Proof.
  unfold by_display_name. rewrite by_display_name_from. split.
  - intros [_ H]. exact H.
  - intros H. split; [apply lookup_empty | exact H].
Qed.

(** C3, as the code has it. An unknown format name makes the two imports and
    (once the action is accepted) the export raise a [ValidationError], which
    the framework answers with 400; a known but disabled format is answered
    with 405. In both cases the world is left as it was: the queue is not
    even asked for the job, and nothing is enqueued. *)
Theorem format_gate (env : Env) (request : Request) (rq_id pk format_name : string)
    (rq_func callback : RqFunc) (db_instance : Instance) (action filename : string)
    (w : World) :
  (Forall (fun f => DISPLAY_NAME f <> format_name) (get_import_formats env) ->
     exists detail,
       _import_annotations env request rq_id rq_func pk format_name w
         = (Raise (ValidationError detail), w)
       /\ _import_project_dataset env request rq_id rq_func pk format_name w
         = (Raise (ValidationError detail), w)
       /\ status_of_exn (ValidationError detail) = 400)
  /\ (Forall (fun f => DISPLAY_NAME f <> format_name) (get_export_formats env) ->
      action = "" \/ action = "download" ->
      _export_annotations env db_instance rq_id request format_name action callback filename w
        = (Raise (ValidationError "Unknown format specified for the request"), w))
  /\ (forall format_desc,
        by_display_name (get_import_formats env) !! format_name = Some format_desc ->
        ENABLED format_desc = false ->
        _import_annotations env request rq_id rq_func pk format_name w
          = (Ok (Response 405 DNone), w)
        /\ _import_project_dataset env request rq_id rq_func pk format_name w
          = (Ok (Response 405 DNone), w))
  /\ (forall format_desc,
        by_display_name (get_export_formats env) !! format_name = Some format_desc ->
        ENABLED format_desc = false ->
        action = "" \/ action = "download" ->
        _export_annotations env db_instance rq_id request format_name action callback filename w
          = (Ok (Response 405 DNone), w)).
Proof.
  repeat split.
  - intros Hunknown. apply by_display_name_None in Hunknown.
    eexists. unfold _import_annotations, _import_project_dataset.
    rewrite Hunknown. repeat split.
  - intros Hunknown Haction. apply by_display_name_None in Hunknown.
    unfold _export_annotations. rewrite Hunknown.
    by destruct Haction as [-> | ->].
  - unfold _import_annotations. rewrite H, H0. reflexivity.
  - unfold _import_project_dataset. rewrite H, H0. reflexivity.
  - intros format_desc Hknown Hdisabled Haction.
    unfold _export_annotations. rewrite Hknown, Hdisabled.
    by destruct Haction as [-> | ->].
Qed.

Lemma format_gate_witness :
  _import_annotations Demo.env (Demo.request "PUT" ∅) "admin1@/api/tasks/1/annotations/upload"
    import_task_annotations "1" "COCO 1.0" (Demo.world ∅ ∅ ∅)
  = (Ok (Response 405 DNone), Demo.world ∅ ∅ ∅).
Proof.
  pose proof (format_gate Demo.env (Demo.request "PUT" ∅)
                "admin1@/api/tasks/1/annotations/upload" "1" "COCO 1.0"
                import_task_annotations export_task_annotations (IsTask Demo.task)
                "" "" (Demo.world ∅ ∅ ∅)) as (_ & _ & Hdisabled & _).
  apply (Hdisabled {| DISPLAY_NAME := "COCO 1.0"; ENABLED := false |});
    reflexivity.
Defined.

(** C3 as stated fails: an export in a format nobody registered is not
    answered with 405 but raises a [ValidationError] (400). *)
Lemma unknown_format_is_not_405 :
  Forall (fun f => DISPLAY_NAME f <> "YOLO") (get_export_formats Demo.env)
  /\ _export_annotations Demo.env (IsTask Demo.task) "/api/tasks/1/annotations/YOLO"
       (Demo.request "GET" {["format" := "YOLO"]}) "YOLO" "" export_task_annotations ""
       (Demo.world ∅ ∅ ∅)
     = (Raise (ValidationError "Unknown format specified for the request"),
        Demo.world ∅ ∅ ∅)
  /\ status_of_exn (ValidationError "Unknown format specified for the request") <> 405.
Proof.
  split; [|split].
  - repeat constructor; discriminate.
  - reflexivity.
  - discriminate.
Qed.

(** ** Importing a dataset into a project *)

Lemma import_project_dataset_conflict (env : Env) (request : Request)
    (rq_id pk format_name : string) (rq_func : RqFunc) (w : World)
    (format_desc : Format) (job : RqJob) :
  by_display_name (get_import_formats env) !! format_name = Some format_desc ->
  ENABLED format_desc = true ->
  rq w !! rq_id = Some job ->
  _import_project_dataset env request rq_id rq_func pk format_name w
    = (Ok (Response 409 (DStr "Import job already exists")), log (EvFetch rq_id) w).
Proof.
  intros Hknown Henabled Hjob. unfold _import_project_dataset.
  rewrite Hknown, Henabled. run_view. cbn. by rewrite Hjob.
Qed.

Lemma import_project_dataset_enqueues (env : Env) (request : Request)
    (rq_id pk format_name : string) (rq_func : RqFunc) (w : World)
    (format_desc : Format) (chunks : list string) (fd : Z) (suffix : string)
    (rest : list (Z * string)) :
  by_display_name (get_import_formats env) !! format_name = Some format_desc ->
  ENABLED format_desc = true ->
  rq w !! rq_id = None ->
  data request !! "dataset_file" = Some chunks ->
  tmp_supply w = (fd, suffix) :: rest ->
  exists job w',
    _import_project_dataset env request rq_id rq_func pk format_name w
      = (Ok (Response 202 DNone), w')
    /\ trace w' = (trace w ++ [EvFetch rq_id; EvEnqueue rq_id job])%list
    /\ rq w' = <[rq_id := job]> (rq w)
    /\ job_status job = QUEUED
    /\ has_tmp_file job w' fd (PosixPath.join (tmpdir env) ("cvat_" +:+ pk +:+ suffix)).
Proof.
  intros Hknown Henabled Hnone Hfile Hsupply. unfold _import_project_dataset.
  rewrite Hknown, Henabled. run_view. cbn. rewrite Hnone.
  unfold validated_file. rewrite Hfile. run_view.
  unfold mkstemp. cbn. rewrite Hsupply. cbn.
  do 2 eexists. split; [reflexivity|]. cbn.
  split; [by rewrite <- app_assoc|]. split; [reflexivity|]. split; [reflexivity|].
  unfold has_tmp_file. cbn. repeat split.
  - set_solver.
  - by simplify_map_eq.
Qed.

(** C10. A POST that imports a project dataset in a known, enabled format is
    answered with 409 and the body 'Import job already exists' whenever a job
    is stored under [/api/project/<pk>/dataset_import], whatever its state,
    and then the queue is only read. An import job is enqueued, with 202 as
    the answer, only when no job is stored under that id. *)
Theorem project_import_conflict (env : Env) (db_project : Project) (request : Request)
    (pk : string) (w : World) (format_desc : Format) :
  method request = "POST" ->
  by_display_name (get_import_formats env) !! query_get request "format" "" = Some format_desc ->
  ENABLED format_desc = true ->
  (forall job, rq w !! project_import_id pk = Some job ->
     ProjectViewSet.dataset env db_project request pk w
       = (Ok (Response 409 (DStr "Import job already exists")),
          log (EvFetch (project_import_id pk)) w))
  /\ (forall result w' events,
        ProjectViewSet.dataset env db_project request pk w = (result, w') ->
        trace w' = (trace w ++ events)%list ->
        Exists (fun e => is_enqueue e = true) events ->
        rq w !! project_import_id pk = None)
  /\ (rq w !! project_import_id pk = None ->
      forall chunks fd suffix rest,
        data request !! "dataset_file" = Some chunks ->
        tmp_supply w = (fd, suffix) :: rest ->
        exists job w',
          ProjectViewSet.dataset env db_project request pk w = (Ok (Response 202 DNone), w')
          /\ trace w' = (trace w ++ [EvFetch (project_import_id pk);
                                     EvEnqueue (project_import_id pk) job])%list
          /\ rq w' = <[project_import_id pk := job]> (rq w)
          /\ job_status job = QUEUED).
Proof.
  intros Hpost Hknown Henabled.
  assert (Hview : ProjectViewSet.dataset env db_project request pk w
                  = _import_project_dataset env request (project_import_id pk)
                      import_dataset_as_project pk (query_get request "format" "") w).
  { unfold ProjectViewSet.dataset. by rewrite Hpost. }
  rewrite Hview. split; [|split].
  - intros job Hjob. by eapply import_project_dataset_conflict.
  - intros result w' events Hrun Htrace Henq.
    destruct (rq w !! project_import_id pk) as [job|] eqn:Hjob; [|reflexivity].
    rewrite (import_project_dataset_conflict _ _ _ _ _ _ _ _ _ Hknown Henabled Hjob) in Hrun.
    injection Hrun as _ <-. cbn in Htrace.
    apply app_inv_head in Htrace. subst events.
    apply Exists_cons in Henq as [Henq | Henq]; [discriminate|].
    by apply Exists_nil in Henq.
  - intros Hnone chunks fd suffix rest Hfile Hsupply.
    destruct (import_project_dataset_enqueues env request (project_import_id pk) pk _
                import_dataset_as_project w _ _ _ _ _ Hknown Henabled Hnone Hfile Hsupply)
      as (job & w' & Hrun & Htrace & Hrq & Hstatus & _).
    by exists job, w'.
Qed.

Lemma project_import_conflict_witness :
  ProjectViewSet.dataset Demo.env Demo.project
    (Demo.request "POST" {["format" := "CVAT 1.1"]}) "3" (Demo.import_world FINISHED None)
  = (Ok (Response 409 (DStr "Import job already exists")),
     log (EvFetch "/api/project/3/dataset_import") (Demo.import_world FINISHED None)).
Proof.
  refine (proj1 (project_import_conflict Demo.env Demo.project
                   (Demo.request "POST" {["format" := "CVAT 1.1"]}) "3"
                   (Demo.import_world FINISHED None)
                   {| DISPLAY_NAME := "CVAT 1.1"; ENABLED := true |}
                   eq_refl eq_refl eq_refl)
                (Demo.job FINISHED Demo.upload_meta None None) _).
  reflexivity.
Defined.

(** ** Polling a project import: [action=import_status] *)

Lemma close_and_remove_tmp_run (j : RqJob) (w : World) (fd : Z) (tmp_file : string) :
  has_tmp_file j w fd tmp_file ->
  close_and_remove_tmp j w
    = (Ok tt, set_fs (delete tmp_file) (set_fds (fun s => s ∖ {[fd]}) w)).
Proof.
  intros (Hfd & Hopen & Hfile & Hthere). unfold close_and_remove_tmp, meta_item.
  rewrite Hfd, Hfile. run_view. cbn. unfold os_close, os_remove.
  rewrite decide_True by exact Hopen. cbn. by rewrite Hthere.
Qed.




(** ** The cache of export jobs *)

(** X25. The time an export is compared with: for a task its own update, for a
    project the latest of its own update and those of its tasks. *)
Lemma last_instance_update_time_max (db_instance : Instance) :
  match db_instance with
  | IsTask t => last_instance_update_time db_instance = task_updated_date t
  | IsProject p =>
      project_updated_date p <= last_instance_update_time db_instance
      /\ Forall (fun t => task_updated_date t <= last_instance_update_time db_instance)
           (project_tasks p)
      /\ (last_instance_update_time db_instance = project_updated_date p
          \/ Exists (fun t => task_updated_date t = last_instance_update_time db_instance)
               (project_tasks p))
  end.
Proof.
  destruct db_instance as [p|t]; [|reflexivity]. cbn.
  induction (project_tasks p) as [|t tasks (IHown & IHall & IHwitness)]; cbn.
  - split; [lia|]. split; [constructor | by left].
  - split; [lia|]. split.
    + constructor; [lia|]. eapply Forall_impl; [exact IHall|]. cbn. lia.
    + destruct (Z.max_spec (task_updated_date t)
                  (fold_right Z.max (project_updated_date p) (map task_updated_date tasks)))
        as [[_ ->] | [_ ->]].
      * destruct IHwitness as [-> | IH]; [by left | right; by apply Exists_cons_tl].
      * right. by apply Exists_cons_hd.
Qed.

(** The job an export enqueues. *)
Lemma export_enqueue_run (env : Env) (db_instance : Instance) (rq_id : string)
    (request : Request) (format_name : string) (callback : RqFunc) (w : World) :
  exists fresh,
    export_enqueue env db_instance rq_id request format_name callback w
      = (Ok (Response 202 DNone), log (EvEnqueue rq_id fresh) (set_rq (insert rq_id fresh) w))
    /\ job_status fresh = QUEUED
    /\ job_func fresh = callback
    /\ job_result_ttl fresh = Some (cache_ttl env db_instance)
    /\ job_failure_ttl fresh = Some (cache_ttl env db_instance)
    /\ job_meta fresh !! "request_time" = Some (VTime (now w)).
Proof.
  unfold export_enqueue. run_view. eexists. split; [reflexivity|]. cbn.
  repeat split.
Qed.

(** Up to the lookup, an export with an accepted action and an enabled
    format is the cache policy followed by the enqueue. *)
Lemma export_annotations_cached (env : Env) (db_instance : Instance) (rq_id : string)
    (request : Request) (format_name action : string) (callback : RqFunc)
    (filename : string) (w : World) (format_desc : Format) (job : RqJob) :
  action = "" \/ action = "download" ->
  by_display_name (get_export_formats env) !! format_name = Some format_desc ->
  ENABLED format_desc = true ->
  rq w !! rq_id = Some job ->
  _export_annotations env db_instance rq_id request format_name action callback filename w
  = match export_cached env db_instance rq_id format_name action filename job
            (log (EvFetch rq_id) w) with
    | (Ok (Some response), w') => (Ok response, w')
    | (Ok None, w') => export_enqueue env db_instance rq_id request format_name callback w'
    | (Raise e, w') => (Raise e, w')
    end.
Proof.
  intros Haction Hknown Henabled Hjob. unfold _export_annotations.
  rewrite Hknown, Henabled.
  replace (negb (String.eqb action "" || String.eqb action "download")) with false
    by (by destruct Haction as [-> | ->]).
  run_view. cbn. rewrite Hjob.
  destruct (export_cached _ _ _ _ _ _ _ _) as [[[response|]|e] w']; reflexivity.
Qed.

(** C1, as the code has it. For an export with an accepted action and an
    enabled format that finds a job cached under its id:
    - when the job's request time is missing or earlier than the last update
      of the exported resource, the job is cancelled and deleted and a new job
      is enqueued whose result and failure TTL are the configured cache TTL;
    - otherwise the cached job answers the request and nothing is enqueued
      (500 with the exception text for a failed job, which is deleted; 202 for
      a job still under way; 201, or the file itself on a download, for a
      finished job whose result file is there),
    - except that a finished job whose result file is gone does not answer:
      a new job is enqueued over it, without cancelling or deleting it. *)
Theorem export_cache_policy (env : Env) (db_instance : Instance) (rq_id : string)
    (request : Request) (format_name action : string) (callback : RqFunc)
    (filename : string) (w : World) (format_desc : Format) (job : RqJob) :
  action = "" \/ action = "download" ->
  by_display_name (get_export_formats env) !! format_name = Some format_desc ->
  ENABLED format_desc = true ->
  rq w !! rq_id = Some job ->
  (job_meta job !! "request_time" = None
   \/ job_meta job !! "request_time" = Some VNone
   \/ (exists t, job_meta job !! "request_time" = Some (VTime t)
                 /\ t < last_instance_update_time db_instance) ->
   exists fresh w',
     _export_annotations env db_instance rq_id request format_name action callback filename w
       = (Ok (Response 202 DNone), w')
     /\ trace w' = (trace w ++ [EvFetch rq_id; EvCancel rq_id; EvDelete rq_id;
                                EvEnqueue rq_id fresh])%list
     /\ rq w' = <[rq_id := fresh]> (rq w)
     /\ job_status fresh = QUEUED
     /\ job_result_ttl fresh = Some (cache_ttl env db_instance)
     /\ job_failure_ttl fresh = Some (cache_ttl env db_instance)
     /\ job_meta fresh !! "request_time" = Some (VTime (now w)))
  /\ (forall t,
        job_meta job !! "request_time" = Some (VTime t) ->
        last_instance_update_time db_instance <= t ->
        (job_status job = FAILED ->
           exists w',
             _export_annotations env db_instance rq_id request format_name action callback
               filename w
               = (Ok (Response 500 (DStr (str (job_exc_info job)))), w')
             /\ trace w' = (trace w ++ [EvFetch rq_id; EvDelete rq_id])%list
             /\ rq w' = delete rq_id (rq w))
        /\ (job_status job <> FINISHED -> job_status job <> FAILED ->
            _export_annotations env db_instance rq_id request format_name action callback
              filename w
              = (Ok (Response 202 DNone), log (EvFetch rq_id) w))
        /\ (forall file_path,
              job_status job = FINISHED ->
              job_return_value job = Some file_path ->
              is_Some (fs w !! file_path) ->
              (action = "" ->
                 _export_annotations env db_instance rq_id request format_name action callback
                   filename w
                   = (Ok (Response 201 DNone), log (EvFetch rq_id) w))
              /\ (action = "download" ->
                  exists attachment_filename w',
                    _export_annotations env db_instance rq_id request format_name action
                      callback filename w
                      = (Ok (Sendfile file_path (Some attachment_filename)), w')
                    /\ trace w' = (trace w ++ [EvFetch rq_id; EvDelete rq_id])%list
                    /\ rq w' = delete rq_id (rq w)))
        /\ (forall file_path,
              job_status job = FINISHED ->
              job_return_value job = Some file_path ->
              fs w !! file_path = None ->
              exists fresh w',
                _export_annotations env db_instance rq_id request format_name action callback
                  filename w
                  = (Ok (Response 202 DNone), w')
                /\ trace w' = (trace w ++ [EvFetch rq_id; EvEnqueue rq_id fresh])%list
                /\ rq w' = <[rq_id := fresh]> (rq w)
                /\ job_result_ttl fresh = Some (cache_ttl env db_instance)
                /\ job_failure_ttl fresh = Some (cache_ttl env db_instance))).
Proof.
  intros Haction Hknown Henabled Hjob.
  rewrite (export_annotations_cached env db_instance rq_id request format_name action
             callback filename w format_desc job Haction Hknown Henabled Hjob).
  unfold export_cached, is_outdated. split.
  - intros Houtdated.
    assert (Hrun : exists w0,
               (match job_meta job !! "request_time" with
                | None | Some VNone => mret true
                | Some (VTime request_time) =>
                    mret (request_time <? last_instance_update_time db_instance)
                | Some _ => raise TypeError
                end : M bool) (log (EvFetch rq_id) w) = (Ok true, w0)
               /\ w0 = log (EvFetch rq_id) w).
    { eexists. split; [|reflexivity].
      destruct Houtdated as [-> | [-> | (t & -> & Hlt)]]; try reflexivity.
      run_view. by rewrite (proj2 (Z.ltb_lt _ _) Hlt). }
    destruct Hrun as (w0 & Hrun & ->).
    rewrite (Run_bind_ok _ _ _ _ _ Hrun). run_view.
    destruct (export_enqueue_run env db_instance rq_id request format_name callback
                (log (EvDelete rq_id) (set_rq (delete rq_id)
                   (log (EvCancel rq_id) (set_rq (alter (with_status CANCELED) rq_id)
                      (log (EvFetch rq_id) w))))))
      as (fresh & Henq & Hstatus & _ & Hres & Hfail & Htime).
    rewrite Henq. exists fresh. eexists. split; [reflexivity|]. cbn.
    split; [by rewrite <- !app_assoc|].
    split; [|by repeat split].
    by rewrite insert_delete_eq, insert_alter_eq.
  - intros t Htime Hfresh. rewrite Htime. run_view.
    rewrite (proj2 (Z.ltb_ge _ _) Hfresh).
    unfold is_finished, is_failed. split; [|split; [|split]].
    + intros ->. eexists. split; [reflexivity|]. cbn. by rewrite <- app_assoc.
    + intros Hnot_finished Hnot_failed. by destruct (job_status job).
    + intros file_path -> -> Hthere. cbn.
      rewrite bool_decide_eq_true_2 by exact Hthere. split; intros ->; cbn.
      * reflexivity.
      * do 2 eexists. split; [reflexivity|]. cbn. by rewrite <- app_assoc.
    + intros file_path -> -> Hgone. cbn.
      rewrite bool_decide_eq_false_2 by (rewrite Hgone; by intros [? ?]).
      rewrite Bool.andb_false_r.
      destruct (export_enqueue_run env db_instance rq_id request format_name callback
                  (log (EvFetch rq_id) w))
        as (fresh & Henq & _ & _ & Hres & Hfail & _).
      rewrite Henq. exists fresh. eexists. split; [reflexivity|]. cbn.
      split; [by rewrite <- app_assoc|]. by repeat split.
Qed.

Lemma export_cache_policy_witness :
  exists fresh w',
    _export_annotations Demo.env (IsTask Demo.task) Demo.export_id
      (Demo.request "GET" {["format" := "CVAT 1.1"]}) "CVAT 1.1" ""
      export_task_annotations ""
      (Demo.export_world (Demo.export_job FINISHED 5 None (Some "/data/cache/export.zip"))
         {["/data/cache/export.zip" := RegularFile]})
    = (Ok (Response 202 DNone), w')
    /\ trace w' = [EvFetch Demo.export_id; EvCancel Demo.export_id;
                   EvDelete Demo.export_id; EvEnqueue Demo.export_id fresh]
    /\ job_result_ttl fresh = Some 36000
    /\ job_failure_ttl fresh = Some 36000.
Proof.
  pose proof (export_cache_policy Demo.env (IsTask Demo.task) Demo.export_id
                (Demo.request "GET" {["format" := "CVAT 1.1"]}) "CVAT 1.1" ""
                export_task_annotations ""
                (Demo.export_world
                   (Demo.export_job FINISHED 5 None (Some "/data/cache/export.zip"))
                   {["/data/cache/export.zip" := RegularFile]})
                {| DISPLAY_NAME := "CVAT 1.1"; ENABLED := true |}
                (Demo.export_job FINISHED 5 None (Some "/data/cache/export.zip"))) as H.
  destruct H as (Houtdated & _);
    [by left | reflexivity | reflexivity | vm_compute; reflexivity |].
  destruct Houtdated as (fresh & w' & Hrun & Htrace & _ & _ & Hres & Hfail & _).
  - right. right. exists 5. split; [reflexivity | cbn; lia].
  - exists fresh, w'. repeat split; assumption.
Defined.

(** C1 as stated fails: a finished export job that is not outdated (it was
    requested at 20, the task last changed at 10) does not answer the request
    when its result file is gone; a new job is enqueued over it. *)
Lemma export_reenqueues_when_result_is_gone :
  exists fresh w',
    rq (Demo.export_world (Demo.export_job FINISHED 20 None (Some "/data/cache/export.zip")) ∅)
      !! Demo.export_id
    = Some (Demo.export_job FINISHED 20 None (Some "/data/cache/export.zip"))
    /\ last_instance_update_time (IsTask Demo.task) = 10
    /\ _export_annotations Demo.env (IsTask Demo.task) Demo.export_id
         (Demo.request "GET" {["format" := "CVAT 1.1"]}) "CVAT 1.1" ""
         export_task_annotations ""
         (Demo.export_world (Demo.export_job FINISHED 20 None (Some "/data/cache/export.zip")) ∅)
       = (Ok (Response 202 DNone), w')
    /\ trace w' = [EvFetch Demo.export_id; EvEnqueue Demo.export_id fresh].
Proof.
  do 2 eexists. split; [vm_compute; reflexivity|]. split; [reflexivity|].
  split; [vm_compute; reflexivity|]. vm_compute. reflexivity.
Qed.

(** ** Failed jobs *)






(** ** Destroying a task *)

Lemma rmtree_gone (path p : string) (s : Db.Store) :
  PosixPath.under path p = true -> Db.files (Db.rmtree path s) !! p = None.
Proof.
  intros Hunder. unfold Db.rmtree. cbn. apply map_lookup_filter_None_2.
  right. intros x _. cbn. congruence.
Qed.

Lemma rmtree_kept (path p : string) (s : Db.Store) :
  PosixPath.under path p = false -> Db.files (Db.rmtree path s) !! p = Db.files s !! p.
Proof.
  intros Hout. unfold Db.rmtree. cbn.
  destruct (Db.files s !! p) as [x|] eqn:Hp.
  - by apply map_lookup_filter_Some_2.
  - apply map_lookup_filter_None_2. by left.
Qed.

Lemma rmtree_None (path p : string) (s : Db.Store) :
  Db.files s !! p = None -> Db.files (Db.rmtree path s) !! p = None.
Proof.
  intros Hp. unfold Db.rmtree. cbn. apply map_lookup_filter_None_2. by left.
Qed.

Lemma under_refl (d : string) : PosixPath.under d d = true.
Proof. unfold PosixPath.under. by rewrite String.eqb_refl. Qed.

(** The tasks that still refer to the data once the task [pk] is deleted. *)
Lemma data_tasks_after_delete (d pk : Z) (s : Db.Store) :
  Db.data_tasks d (Db.set_tasks (delete pk) s) = ∅
  <-> forall t row, Db.tasks s !! t = Some row -> t <> pk -> Db.row_data row <> Some d.
Proof.
  unfold Db.data_tasks. cbn. rewrite map_empty. split.
  - intros Hnone t row Ht Hne Hdata.
    specialize (Hnone t). apply map_lookup_filter_None in Hnone as [Hnone | Hnone].
    + rewrite lookup_delete_ne in Hnone by done. congruence.
    + apply (Hnone row); [by rewrite lookup_delete_ne | exact Hdata].
  - intros Hnone t. apply map_lookup_filter_None_2.
    destruct (decide (t = pk)) as [-> | Hne].
    + left. apply lookup_delete_eq.
    + right. intros row Ht. rewrite lookup_delete_ne in Ht by done. cbn.
      by eapply Hnone.
Qed.

(** C4. After a task is destroyed its row is gone and so is its directory
    with all below it. If the task had data and no other task refers to
    that data, the data's directory is removed and its row deleted; if another
    task still refers to it, the table of data is as before, and so is the
    data's directory (as long as none of its files lies in the task's
    directory). *)
Theorem perform_destroy_removes (get_task_dirname get_data_dirname : Z -> string)
    (instance : Db.TaskObj) (s : Db.Store) :
  Db.tasks (TaskViewSet.perform_destroy get_task_dirname get_data_dirname instance s).2
    !! Db.pk instance = None
  /\ (forall p,
        PosixPath.under (get_task_dirname (Db.pk instance)) p = true ->
        Db.files (TaskViewSet.perform_destroy get_task_dirname get_data_dirname instance s).2
          !! p = None)
  /\ (forall d row,
        Db.obj_data instance = Some d ->
        Db.datas s !! d = Some row ->
        ((forall t r, Db.tasks s !! t = Some r -> t <> Db.pk instance ->
                      Db.row_data r <> Some d) ->
         (TaskViewSet.perform_destroy get_task_dirname get_data_dirname instance s).1 = Ok tt
         /\ Db.datas (TaskViewSet.perform_destroy get_task_dirname get_data_dirname instance s).2
              !! d = None
         /\ forall p,
              PosixPath.under (get_data_dirname d) p = true ->
              Db.files (TaskViewSet.perform_destroy get_task_dirname get_data_dirname
                          instance s).2 !! p = None)
        /\ ((exists t r, Db.tasks s !! t = Some r /\ t <> Db.pk instance
                         /\ Db.row_data r = Some d) ->
            (TaskViewSet.perform_destroy get_task_dirname get_data_dirname instance s).1 = Ok tt
            /\ Db.datas (TaskViewSet.perform_destroy get_task_dirname get_data_dirname
                           instance s).2 = Db.datas s
            /\ ((forall p, is_Some (Db.files s !! p) ->
                           PosixPath.under (get_data_dirname d) p = true ->
                           PosixPath.under (get_task_dirname (Db.pk instance)) p = false) ->
                forall p,
                  PosixPath.under (get_data_dirname d) p = true ->
                  Db.files (TaskViewSet.perform_destroy get_task_dirname get_data_dirname
                              instance s).2 !! p = Db.files s !! p))).
Proof.
  unfold TaskViewSet.perform_destroy.
  set (s1 := Db.rmtree (get_task_dirname (Db.pk instance))
               (Db.set_tasks (delete (Db.pk instance)) s)).
  assert (Htasks1 : Db.tasks s1 !! Db.pk instance = None) by apply lookup_delete_eq.
  assert (Hdatas1 : Db.datas s1 = Db.datas s) by reflexivity.
  assert (Hrefs : forall d, Db.data_tasks d s1
                            = Db.data_tasks d (Db.set_tasks (delete (Db.pk instance)) s))
    by reflexivity.
  split; [|split].
  - destruct (Db.obj_data instance) as [d|]; [|by destruct (Db.obj_project instance)].
    destruct (Db.datas s1 !! d); [|exact Htasks1].
    destruct (bool_decide _); by destruct (Db.obj_project instance).
  - intros p Hunder.
    assert (Hgone : Db.files s1 !! p = None) by (by apply rmtree_gone).
    destruct (Db.obj_data instance) as [d|]; [|by destruct (Db.obj_project instance)].
    destruct (Db.datas s1 !! d); [|exact Hgone].
    destruct (bool_decide _); destruct (Db.obj_project instance); cbn; try exact Hgone;
      by apply (rmtree_None _ _ s1).
  - intros d row -> Hrow. rewrite Hdatas1, Hrow. split.
    + intros Hlast. apply data_tasks_after_delete in Hlast. rewrite <- Hrefs in Hlast.
      rewrite bool_decide_eq_true_2 by exact Hlast.
      destruct (Db.obj_project instance); cbn;
        (split; [reflexivity|]; split; [apply lookup_delete_eq|]);
        intros p Hunder; by apply (rmtree_gone _ _ s1).
    + intros (t & r & Ht & Hne & Hdata).
      assert (Hstill : Db.data_tasks d s1 <> ∅).
      { rewrite Hrefs, data_tasks_after_delete. intros Hnone. by eapply Hnone. }
      rewrite bool_decide_eq_false_2 by exact Hstill.
      destruct (Db.obj_project instance); cbn;
        (split; [reflexivity|]; split; [reflexivity|]);
        intros Hapart p Hunder;
        (destruct (Db.files s !! p) as [x|] eqn:Hp;
         [ rewrite <- Hp; apply rmtree_kept; apply Hapart; [by rewrite Hp | exact Hunder]
         | by apply rmtree_None ]).
Qed.

Lemma perform_destroy_removes_witness :
  (TaskViewSet.perform_destroy Demo.get_task_dirname Demo.get_data_dirname
     Demo.task_obj Demo.store).1 = Ok tt
  /\ Db.datas (TaskViewSet.perform_destroy Demo.get_task_dirname Demo.get_data_dirname
                 Demo.task_obj Demo.store).2 !! 7 = None
  /\ Db.files (TaskViewSet.perform_destroy Demo.get_task_dirname Demo.get_data_dirname
                 Demo.task_obj Demo.store).2 !! "/data/data/7/raw/0.png" = None.
Proof.
  destruct (perform_destroy_removes Demo.get_task_dirname Demo.get_data_dirname
              Demo.task_obj Demo.store) as (_ & _ & Hdata).
  destruct (Hdata 7 {| Db.data_size := 3 |} eq_refl eq_refl) as (Hlast & _).
  destruct Hlast as (Hok & Hrow & Hdir).
  - intros t r Ht Hne. cbn in Ht. apply lookup_singleton_Some in Ht as [Ht _]. subst t. by destruct Hne.
  - split; [exact Hok|]. split; [exact Hrow|]. apply Hdir. reflexivity.
Defined.

(** ** Browsing the share *)

Example normpath_dots : PosixPath.normpath "/a/b/../c/./d//e/" = "/a/c/d/e".
Proof. reflexivity. Qed.

Example normpath_above_root : PosixPath.normpath "/.." = "/".
Proof. reflexivity. Qed.

Example normpath_two_slashes : PosixPath.normpath "//a/../../b" = "//b".
Proof. reflexivity. Qed.

Example normpath_relative : PosixPath.normpath "a/../../b" = "../b".
Proof. reflexivity. Qed.

Example join_absolute : PosixPath.join "/home/django/share" "/etc" = "/etc".
Proof. reflexivity. Qed.

(** A path that climbs out of the share and does not come back under a name
    that starts like it is refused. *)
Example share_refuses_etc :
  ServerViewSet.share Demo.env (Demo.request "GET" {["directory" := "../../../etc"]})
    Demo.share_world
  = (Ok (Response 400 (DStr "../../../etc is an invalid directory")), Demo.share_world).
Proof. vm_compute. reflexivity. Qed.

Example share_lists_the_share :
  ServerViewSet.share Demo.env (Demo.request "GET" ∅) Demo.share_world
  = (Ok (Response 200 (DFiles [("images", "DIR")])), Demo.share_world).
Proof. vm_compute. reflexivity. Qed.

(** X22. What [share] checks: it lists the directory exactly when its normalized
    path starts, as a string, with [SHARE_ROOT] and names a directory, and
    answers 400 otherwise. *)
Lemma share_guard (env : Env) (request : Request) (w : World) :
  let param := query_get request "directory" "/" in
  let is_dir := match fs w !! ServerViewSet.share_directory env param with
                | Some Directory => true
                | _ => false
                end in
  if (startswith (SHARE_ROOT env) (ServerViewSet.share_directory env param) && is_dir)%bool
  then (exists listed,
          ServerViewSet.share env request w = (Ok (Response 200 (DFiles listed)), w))
       \/ (exists detail,
             ServerViewSet.share env request w = (Raise (ValidationError detail), w))
  else exists detail,
         ServerViewSet.share env request w = (Ok (Response 400 (DStr detail)), w).
Proof.
  cbn zeta. unfold ServerViewSet.share, ServerViewSet.share_directory. run_view.
  destruct (startswith (SHARE_ROOT env) _ && _)%bool.
  - unfold scandir. destruct (FileInfoSerializer env _); [left | right]; by eexists.
  - by eexists.
Qed.

(** C8 at the failing input. With the share at [/home/django/share], the
    parameter [../share_private] is normalized to
    [/home/django/share_private], which is not under the share but starts
    with its name as a string: the view lists that directory. *)
Theorem share_lists_sibling_directory :
  ServerViewSet.share_directory Demo.env "../share_private" = "/home/django/share_private"
  /\ PosixPath.under (SHARE_ROOT Demo.env) "/home/django/share_private" = false
  /\ ServerViewSet.share Demo.env (Demo.request "GET" {["directory" := "../share_private"]})
       Demo.share_world
     = (Ok (Response 200 (DFiles [("secret.txt", "REG")])), Demo.share_world).
Proof.
  split; [reflexivity|]. split; [reflexivity|]. vm_compute. reflexivity.
Qed.

(** ** Serving chunks and frames *)

Section Getter.
Context (int : string -> option Z) (USE_CACHE : bool) (get_chunk_number : Z -> Z).

(** X24. For a chunk or a frame, [__init__] raises a [ValidationError] exactly
    when the number is missing or the quality is neither of the two. *)
Lemma init_validates (data_type : string) (data_num : option string)
    (data_quality task_dim : string) :
  data_type = "chunk" \/ data_type = "frame" ->
  (exists detail,
     DataChunkGetter.__init__ int (Some data_type) data_num data_quality task_dim
       = Raise (ValidationError detail))
  <-> ~ (truthy (default "" data_num) = true
         /\ (data_quality = "compressed" \/ data_quality = "original")).
Proof.
  intros Htype. unfold DataChunkGetter.__init__.
  replace (negb (truthy (default "" (Some data_type)))
           || negb (DataChunkGetter.mem (default "" (Some data_type))
                      DataChunkGetter.possible_data_type_values))%bool
    with false by (by destruct Htype as [-> | ->]).
  replace (String.eqb (default "" (Some data_type)) "chunk"
           || String.eqb (default "" (Some data_type)) "frame")%bool
    with true by (by destruct Htype as [-> | ->]).
  cbn [andb]. destruct (truthy (default "" data_num)) eqn:Hnum; cbn [negb].
  - assert (Hq : DataChunkGetter.mem data_quality DataChunkGetter.possible_quality_values = true
                 <-> data_quality = "compressed" \/ data_quality = "original").
    { unfold DataChunkGetter.mem, DataChunkGetter.possible_quality_values. cbn.
      rewrite Bool.orb_false_r, Bool.orb_true_iff, !String.eqb_eq. tauto. }
    destruct (DataChunkGetter.mem data_quality _) eqn:Hmem; cbn [negb].
    + split.
      * intros [detail Hraise]. by destruct (int _).
      * intros Hnot. destruct Hnot. split; [reflexivity | by apply Hq].
    + split; [|by eexists].
      intros _ [_ Hquality]. apply Hq in Hquality. discriminate.
  - split; [|by eexists]. intros _ [Hgiven _]. discriminate.
Qed.

(** X23. Whatever the getter goes on to serve lies in the range it was
    given: a chunk between the chunks of [start] and [stop], a frame or a
    context image between [start] and [stop]. *)
Lemma served_in_range (self : DataChunkGetter.t) (start stop : Z) (db_data : option bool)
    (served : DataChunkGetter.Served) :
  DataChunkGetter.__call__ USE_CACHE get_chunk_number self start stop db_data = Ok served ->
  match served with
  | DataChunkGetter.ChunkFromCache n _ | DataChunkGetter.ChunkFile n _ =>
      get_chunk_number start <= n <= get_chunk_number stop
  | DataChunkGetter.Frame n _ | DataChunkGetter.ContextImage n => start <= n <= stop
  | _ => True
  end.
Proof.
  unfold DataChunkGetter.__call__, DataChunkGetter.out_of_range.
  destruct db_data as [storage_is_cache|]; [|discriminate].
  repeat (destruct (String.eqb (DataChunkGetter.type self) _));
    destruct (DataChunkGetter.number self) as [n|]; try discriminate;
    try (intros [= <-]; exact I);
    match goal with
    | |- context [negb ((?a <=? n) && (n <=? ?b))] =>
        destruct (Z.leb_spec a n); destruct (Z.leb_spec n b); cbn
    end;
    try discriminate;
    try (destruct (USE_CACHE && storage_is_cache)%bool);
    intros [= <-]; lia.
Qed.

(** A frame outside [start, stop] is refused with a [ValidationError]. *)
Lemma frame_out_of_range (data_num : string) (n : Z) (data_quality task_dim : string)
    (start stop : Z) (storage_is_cache : bool) :
  truthy data_num = true ->
  data_quality = "compressed" \/ data_quality = "original" ->
  int data_num = Some n ->
  ~ (start <= n <= stop) ->
  exists detail,
    DataChunkGetter.serve int USE_CACHE get_chunk_number (Some "frame") (Some data_num)
      data_quality task_dim start stop (Some storage_is_cache)
    = Raise (ValidationError detail).
Proof.
  intros Hgiven Hquality Hint Hout.
  unfold DataChunkGetter.serve, DataChunkGetter.__init__, DataChunkGetter.out_of_range.
  destruct Hquality as [-> | ->]; cbn; rewrite Hgiven; cbn; rewrite Hint; cbn;
    destruct (Z.leb_spec start n); destruct (Z.leb_spec n stop); cbn;
    try (by eexists); lia.
Qed.

End Getter.

(** C9 at the failing input. A request for a context image that gives no
    number passes [__init__], which asks for a number only for chunks and
    frames, and then fails in [__call__] on the comparison of [None] with
    the frame range: a [TypeError], not a [ValidationError]. *)
Theorem context_image_without_number (int : string -> option Z) (USE_CACHE : bool)
    (get_chunk_number : Z -> Z) (data_quality task_dim : string) (start stop : Z)
    (storage_is_cache : bool) :
  DataChunkGetter.serve int USE_CACHE get_chunk_number (Some "context_image") None
    data_quality task_dim start stop (Some storage_is_cache)
  = Raise TypeError
  /\ status_of_exn TypeError = 500.
Proof. split; reflexivity. Qed.

(** ** The identifiers of the jobs *)

Section Touches.
Context {A B : Type} (job_id : string).

Lemma touches_ret (a : A) : touches_only job_id (mret a : M A).
Proof. intros w r w' [= <- <-]. exists []. by rewrite app_nil_r. Qed.

Lemma touches_raise (e : Exn) : touches_only job_id (raise e : M A).
Proof. intros w r w' [= <- <-]. exists []. by rewrite app_nil_r. Qed.

Lemma touches_bind (m : M A) (k : A -> M B) :
  touches_only job_id m -> (forall a, touches_only job_id (k a)) ->
  touches_only job_id (m ≫= k).
Proof.
  intros Hm Hk w r w'. unfold mbind, M_bind, bind.
  destruct (m w) as [[a|e] w1] eqn:Hrun; destruct (Hm _ _ _ Hrun) as (ev1 & Ht1 & Hall1).
  - intros Hrest. destruct (Hk a _ _ _ Hrest) as (ev2 & Ht2 & Hall2).
    exists (ev1 ++ ev2)%list. split; [by rewrite Ht2, Ht1, app_assoc | by apply Forall_app].
  - intros [= <- <-]. by exists ev1.
Qed.

(** A computation that leaves the trace alone touches no other job. *)
Lemma touches_quiet (m : M A) :
  (forall w, trace (m w).2 = trace w) -> touches_only job_id m.
Proof.
  intros Hquiet w r w' Hrun. exists []. rewrite app_nil_r.
  specialize (Hquiet w). by rewrite Hrun in Hquiet.
Qed.

End Touches.

Lemma touches_fetch (job_id : string) : touches_only job_id (fetch_job job_id).
Proof. intros w r w' [= <- <-]. exists [EvFetch job_id]. split; [reflexivity | by repeat constructor]. Qed.

Lemma touches_delete (job_id : string) : touches_only job_id (delete_job job_id).
Proof. intros w r w' [= <- <-]. exists [EvDelete job_id]. split; [reflexivity | by repeat constructor]. Qed.

Lemma touches_cancel (job_id : string) : touches_only job_id (cancel job_id).
Proof. intros w r w' [= <- <-]. exists [EvCancel job_id]. split; [reflexivity | by repeat constructor]. Qed.

Lemma touches_save_meta (job_id : string) (j : RqJob) : touches_only job_id (save_meta job_id j).
Proof. intros w r w' [= <- <-]. exists [EvSaveMeta job_id]. split; [reflexivity | by repeat constructor]. Qed.

Lemma touches_enqueue (func : RqFunc) (args : list Value) (job_id : string)
    (meta : gmap string Value) (result_ttl failure_ttl : option Z) :
  touches_only job_id (enqueue_call func args job_id meta result_ttl failure_ttl).
Proof.
  intros w r w' [= <- <-]. eexists [EvEnqueue job_id _].
  split; [reflexivity | by repeat constructor].
Qed.

Lemma touches_close_and_remove (job_id : string) (j : RqJob) :
  touches_only job_id (close_and_remove_tmp j).
Proof.
  apply touches_quiet. intros w. unfold close_and_remove_tmp, meta_item, as_int, as_str.
  run_view. unfold os_close, os_remove.
  destruct (job_meta j !! "tmp_file_descriptor") as [[]|]; cbn; try reflexivity.
  case_decide; cbn; [|reflexivity].
  destruct (job_meta j !! "tmp_file") as [[]|]; cbn; try reflexivity.
  by destruct (fs w !! s) as [[]|].
Qed.

Lemma touches_mkstemp (job_id tmpdir prefix : string) :
  touches_only job_id (mkstemp tmpdir prefix).
Proof.
  apply touches_quiet. intros w. unfold mkstemp. by destruct (tmp_supply w) as [|[fd suffix] rest].
Qed.

(** One step through a view towards [touches_only]. *)
Ltac touches_step :=
  match goal with
  | |- touches_only _ (mbind _ _) => apply touches_bind; [|intros ?]
  | |- touches_only _ (mret _) => apply touches_ret
  | |- touches_only _ (raise _) => apply touches_raise
  | |- touches_only _ (fetch_job _) => apply touches_fetch
  | |- touches_only _ (delete_job _) => apply touches_delete
  | |- touches_only _ (cancel _) => apply touches_cancel
  | |- touches_only _ (save_meta _ _) => apply touches_save_meta
  | |- touches_only _ (enqueue_call _ _ _ _ _ _) => apply touches_enqueue
  | |- touches_only _ (close_and_remove_tmp _) => apply touches_close_and_remove
  | |- touches_only _ (mkstemp _ _) => apply touches_mkstemp
  | |- touches_only _ (exists_ _) => apply touches_quiet; reflexivity
  | |- touches_only _ localtime_now => apply touches_quiet; reflexivity
  | |- touches_only _ (match ?x with _ => _ end) => destruct x
  end.

Lemma touches_import_annotations (env : Env) (request : Request) (rq_id : string)
    (rq_func : RqFunc) (pk format_name : string) :
  touches_only rq_id (_import_annotations env request rq_id rq_func pk format_name).
Proof.
  unfold _import_annotations, validated_file. repeat touches_step.
Qed.

Lemma touches_import_project_dataset (env : Env) (request : Request) (rq_id : string)
    (rq_func : RqFunc) (pk format_name : string) :
  touches_only rq_id (_import_project_dataset env request rq_id rq_func pk format_name).
Proof.
  unfold _import_project_dataset, validated_file. repeat touches_step.
Qed.

Lemma touches_export_annotations (env : Env) (db_instance : Instance) (rq_id : string)
    (request : Request) (format_name action : string) (callback : RqFunc)
    (filename : string) :
  touches_only rq_id
    (_export_annotations env db_instance rq_id request format_name action callback filename).
Proof.
  unfold _export_annotations, export_cached, export_enqueue, is_outdated.
  repeat touches_step.
Qed.

Lemma touches_project_rq_response (queue job_id : string) :
  touches_only job_id (ProjectViewSet._get_rq_response queue job_id).
Proof. unfold ProjectViewSet._get_rq_response. repeat touches_step. Qed.

Lemma touches_task_rq_response (queue job_id : string) :
  touches_only job_id (TaskViewSet._get_rq_response queue job_id).
Proof. unfold TaskViewSet._get_rq_response. repeat touches_step. Qed.

Lemma split_first_app (a b : string) :
  has_slash a = false -> split_first (a +:+ "/" +:+ b) = Some (a, b).
Proof.
  induction a as [|c a IH]; cbn -[Ascii.eqb]; [reflexivity|].
  intros Hno. apply Bool.orb_false_iff in Hno as [Hc Ha].
  change (String c a +:+ "/" +:+ b) with (String c (a +:+ "/" +:+ b)).
  cbn -[Ascii.eqb]. by rewrite Hc, (IH Ha).
Qed.

Lemma split_first_no_slash (a : string) : has_slash a = false -> split_first a = None.
Proof.
  induction a as [|c a IH]; cbn -[Ascii.eqb]; [reflexivity|].
  intros Hno. apply Bool.orb_false_iff in Hno as [Hc Ha].
  by rewrite Hc, (IH Ha).
Qed.

Lemma strip_prefix_app (p s : string) : strip_prefix p (p +:+ s) = Some s.
Proof.
  induction p as [|c p IH]; [reflexivity|].
  change (String c p +:+ s) with (String c (p +:+ s)).
  cbn -[Ascii.eqb]. by rewrite Ascii.eqb_refl.
Qed.

(** [/api/<resource>/<pk>/<operation>] has the form of the specification
    when the operation is not empty. *)
Lemma job_id_form_intro (resource pk operation : string) :
  valid_pk pk -> has_slash resource = false -> truthy resource = true ->
  truthy operation = true ->
  is_job_id_form ("/api/" +:+ resource +:+ "/" +:+ pk +:+ "/" +:+ operation) = true.
Proof.
  intros [Hpk Hno] Hres Hres' Hop. unfold is_job_id_form.
  rewrite strip_prefix_app.
  rewrite (split_first_app resource _ Hres), (split_first_app pk _ Hno).
  by rewrite Hres', Hpk, Hop.
Qed.

(** A trace whose events are all about one job of the right form. *)
Lemma touches_form {A} (job_id : string) (m : M A) (w w' : World) (r : Res A) :
  touches_only job_id m -> is_job_id_form job_id = true -> m w = (r, w') ->
  exists events,
    trace w' = (trace w ++ events)%list
    /\ Forall (fun e => is_job_id_form (event_id e) = true) events.
Proof.
  intros Htouch Hform Hrun. destruct (Htouch _ _ _ Hrun) as (events & Htrace & Hall).
  exists events. split; [exact Htrace|].
  eapply Forall_impl; [exact Hall|]. by intros e ->.
Qed.

(** C6, as the code has it. For a primary key [pk] without a slash:
    - the ids under which projects and tasks are exported and a project is
      imported have the form [/api/<resource>/<pk>/<operation>], the operation
      of an export being [dataset/<format>] or [annotations/<format>];
    - the id of an annotation upload to a task or a job is such an id with
      [<user>@] in front of it;
    - the id under which the status of a task is polled is [/api/tasks/<pk>],
      with no operation. *)
Theorem job_ids_of_the_views (env : Env) (request : Request) (pk : string) (w : World) :
  valid_pk pk ->
  (forall db_project r w',
     ProjectViewSet.dataset env db_project request pk w = (r, w') ->
     exists events,
       trace w' = (trace w ++ events)%list
       /\ Forall (fun e => is_job_id_form (event_id e) = true) events)
  /\ (forall db_project r w',
        ProjectViewSet.annotations env db_project request pk w = (r, w') ->
        exists events,
          trace w' = (trace w ++ events)%list
          /\ Forall (fun e => is_job_id_form (event_id e) = true) events)
  /\ (forall db_task r w',
        TaskViewSet.dataset_export env db_task request pk w = (r, w') ->
        exists events,
          trace w' = (trace w ++ events)%list
          /\ Forall (fun e => is_job_id_form (event_id e) = true) events)
  /\ (forall db_task format_name r w',
        method request = "GET" ->
        query_params request !! "format" = Some format_name ->
        truthy format_name = true ->
        TaskViewSet.annotations env db_task request pk w = (r, w') ->
        exists events,
          trace w' = (trace w ++ events)%list
          /\ Forall (fun e => is_job_id_form (event_id e) = true) events)
  /\ (forall db_task format_name r w',
        method request = "PUT" ->
        query_params request !! "format" = Some format_name ->
        truthy format_name = true ->
        TaskViewSet.annotations env db_task request pk w = (r, w') ->
        exists events,
          trace w' = (trace w ++ events)%list
          /\ Forall (fun e => event_id e
                              = user request +:+ "@" +:+ "/api/tasks/" +:+ pk
                                +:+ "/annotations/upload") events
          /\ is_job_id_form ("/api/tasks/" +:+ pk +:+ "/annotations/upload") = true)
  /\ (forall format_name r w',
        method request = "PUT" ->
        query_params request !! "format" = Some format_name ->
        truthy format_name = true ->
        JobViewSet.annotations env request pk w = (r, w') ->
        exists events,
          trace w' = (trace w ++ events)%list
          /\ Forall (fun e => event_id e
                              = user request +:+ "@" +:+ "/api/jobs/" +:+ pk
                                +:+ "/annotations/upload") events
          /\ is_job_id_form ("/api/jobs/" +:+ pk +:+ "/annotations/upload") = true)
  /\ (forall r w',
        TaskViewSet.status env request pk w = (r, w') ->
        trace w' = (trace w ++ [EvFetch ("/api/tasks/" +:+ pk)])%list
        /\ is_job_id_form ("/api/tasks/" +:+ pk) = false).
Proof.
  intros Hpk.
  assert (Hform : forall resource operation,
             has_slash resource = false -> truthy resource = true ->
             truthy operation = true ->
             is_job_id_form ("/api/" +:+ resource +:+ "/" +:+ pk +:+ "/" +:+ operation) = true)
    by (intros; by apply job_id_form_intro).
  repeat apply conj.
  - intros db_project r w'. unfold ProjectViewSet.dataset.
    destruct (String.eqb (method request) "POST").
    + intros Hrun. eapply touches_form; [apply touches_import_project_dataset | | exact Hrun].
      by apply (Hform "project" "dataset_import").
    + destruct (String.eqb _ "import_status").
      * intros Hrun.
        eapply (touches_form ("/api/project/" +:+ pk +:+ "/dataset_import"));
          [| by apply (Hform "project" "dataset_import") | exact Hrun].
        repeat touches_step. apply touches_project_rq_response.
      * intros Hrun. eapply touches_form; [apply touches_export_annotations | | exact Hrun].
        by apply (Hform "project" ("dataset/" +:+ query_get request "format" "")).
  - intros db_project r w'. unfold ProjectViewSet.annotations.
    destruct (query_params request !! "format") as [format_name|];
      [destruct (truthy format_name)|].
    + intros Hrun. eapply touches_form; [apply touches_export_annotations | | exact Hrun].
      by apply (Hform "projects" ("annotations/" +:+ format_name)).
    + intros [= <- <-]. exists []. by rewrite app_nil_r.
    + intros [= <- <-]. exists []. by rewrite app_nil_r.
  - intros db_task r w'. unfold TaskViewSet.dataset_export.
    intros Hrun. eapply touches_form; [apply touches_export_annotations | | exact Hrun].
    by apply (Hform "tasks" ("dataset/" +:+ query_get request "format" "")).
  - intros db_task format_name r w' Hget Hformat Hgiven. unfold TaskViewSet.annotations.
    rewrite Hget, Hformat. cbn. rewrite Hgiven.
    intros Hrun. eapply touches_form; [apply touches_export_annotations | | exact Hrun].
    by apply (Hform "tasks" ("annotations/" +:+ format_name)).
  - intros db_task format_name r w' Hput Hformat Hgiven. unfold TaskViewSet.annotations.
    rewrite Hput, Hformat. cbn. rewrite Hgiven. intros Hrun.
    destruct (touches_import_annotations _ _ _ _ _ _ _ _ _ Hrun) as (events & Htrace & Hall).
    exists events. split; [exact Htrace|]. split; [exact Hall|].
    by apply (Hform "tasks" "annotations/upload").
  - intros format_name r w' Hput Hformat Hgiven. unfold JobViewSet.annotations, query_get.
    rewrite Hput, Hformat. cbn. rewrite Hgiven. intros Hrun.
    destruct (touches_import_annotations _ _ _ _ _ _ _ _ _ Hrun) as (events & Htrace & Hall).
    exists events. split; [exact Htrace|]. split; [exact Hall|].
    by apply (Hform "jobs" "annotations/upload").
  - intros r w'. unfold TaskViewSet.status, TaskViewSet._get_rq_response. run_view.
    intros Hrun. split.
    + destruct (RqStatusSerializer env _); by injection Hrun as _ <-.
    + unfold is_job_id_form.
      change ("/api/tasks/" +:+ pk) with ("/api/" +:+ "tasks" +:+ "/" +:+ pk).
      rewrite strip_prefix_app, (split_first_app "tasks" pk eq_refl).
      by rewrite (split_first_no_slash pk (proj2 Hpk)).
Qed.

Lemma job_ids_of_the_views_witness :
  exists events,
    trace (TaskViewSet.annotations Demo.env Demo.task Demo.upload_request "1"
             (Demo.world ∅ ∅ ∅)).2
    = (trace (Demo.world ∅ ∅ ∅) ++ events)%list
    /\ Forall (fun e => event_id e = "admin1@/api/tasks/1/annotations/upload") events
    /\ is_job_id_form "/api/tasks/1/annotations/upload" = true.
Proof.
  destruct (job_ids_of_the_views Demo.env Demo.upload_request "1" (Demo.world ∅ ∅ ∅))
    as (_ & _ & _ & _ & Hput & _); [by split|].
  apply (Hput Demo.task "CVAT 1.1"
           (TaskViewSet.annotations Demo.env Demo.task Demo.upload_request "1"
              (Demo.world ∅ ∅ ∅)).1);
    [reflexivity | vm_compute; reflexivity | reflexivity | apply surjective_pairing].
Defined.

(** C6 as stated fails: the id under which admin1 uploads annotations for
    task 1 is handed to [fetch_job] and [enqueue_call] as
    [admin1@/api/tasks/1/annotations/upload], which does not start with
    [/api/]. *)
Lemma upload_job_id_starts_with_user :
  exists j w',
    TaskViewSet.annotations Demo.env Demo.task Demo.upload_request "1" (Demo.world ∅ ∅ ∅)
    = (Ok (Response 202 DNone), w')
    /\ trace w' = [EvFetch "admin1@/api/tasks/1/annotations/upload";
                   EvEnqueue "admin1@/api/tasks/1/annotations/upload" j;
                   EvSaveMeta "admin1@/api/tasks/1/annotations/upload"]
    /\ is_job_id_form "admin1@/api/tasks/1/annotations/upload" = false.
Proof.
  do 2 eexists. split; [vm_compute; reflexivity|]. split; [vm_compute; reflexivity|].
  reflexivity.
Qed.

(** * Further properties *)

#[local] Set Warnings "-clear-no-such-hyp".

(** ** Uploads: from the request to the poll that ends them *)

(** What [mkstemp] promises: the descriptor and the file are new. *)
Lemma tmp_file_round_trip (w : World) (fd : Z) (tmp_file : string) :
  fd ∉ fds w -> fs w !! tmp_file = None ->
  delete tmp_file (<[tmp_file := RegularFile]> (fs w)) = fs w
  /\ (fds w ∪ {[fd]}) ∖ {[fd]} = fds w.
Proof.
  intros Hfd Hfile. split; [by apply delete_insert_id | set_solver].
Qed.

Lemma import_annotations_enqueues (env : Env) (request : Request)
    (rq_id pk format_name : string) (rq_func : RqFunc) (w : World)
    (format_desc : Format) (chunks : list string) (fd : Z) (suffix : string)
    (rest : list (Z * string)) :
  by_display_name (get_import_formats env) !! format_name = Some format_desc ->
  ENABLED format_desc = true ->
  rq w !! rq_id = None ->
  data request !! "annotation_file" = Some chunks ->
  tmp_supply w = (fd, suffix) :: rest ->
  av_scan_paths env (PosixPath.join (tmpdir env) ("cvat_" +:+ pk +:+ suffix)) = None ->
  exists job w',
    _import_annotations env request rq_id rq_func pk format_name w
      = (Ok (Response 202 DNone), w')
    /\ rq w' = <[rq_id := job]> (rq w)
    /\ fs w' = <[PosixPath.join (tmpdir env) ("cvat_" +:+ pk +:+ suffix) := RegularFile]> (fs w)
    /\ fds w' = fds w ∪ {[fd]}
    /\ job_status job = QUEUED
    /\ job_func job = rq_func
    /\ job_meta job !! "tmp_file_descriptor" = Some (VInt fd)
    /\ job_meta job !! "tmp_file"
       = Some (VStr (PosixPath.join (tmpdir env) ("cvat_" +:+ pk +:+ suffix)))
    /\ filter (fun e => is_enqueue e = true) (trace w')
       = (filter (fun e => is_enqueue e = true) (trace w) ++ [EvEnqueue rq_id
            {| job_status := QUEUED; job_meta := ∅; job_exc_info := None;
               job_return_value := None; job_func := rq_func;
               job_args := [VStr pk;
                            VStr (PosixPath.join (tmpdir env) ("cvat_" +:+ pk +:+ suffix));
                            VStr format_name];
               job_result_ttl := None; job_failure_ttl := None |}])%list.
Proof.
  intros Hknown Henabled Hnone Hfile Hsupply Hscan. unfold _import_annotations.
  rewrite Hknown, Henabled. run_view. cbn. rewrite Hnone.
  unfold validated_file. rewrite Hfile. run_view.
  unfold mkstemp. cbn. rewrite Hsupply. cbn.
  change (("cvat_" +:+ pk) +:+ suffix) with ("cvat_" +:+ pk +:+ suffix).
  rewrite Hscan. cbn.
  do 2 eexists. split; [reflexivity|]. cbn.
  split; [by rewrite alter_insert_eq|].
  split; [reflexivity|]. split; [reflexivity|]. split; [reflexivity|].
  split; [reflexivity|]. split; [by simplify_map_eq|]. split; [by simplify_map_eq|].
  rewrite !filter_app.
  rewrite (filter_cons_False _ (EvFetch rq_id)) by (cbn; discriminate).
  rewrite (filter_cons_False _ (EvSaveMeta rq_id)) by (cbn; discriminate).
  rewrite filter_cons_True by reflexivity.
  by rewrite !filter_nil, !app_nil_r.
Qed.

(** The poll of a finished import: the two imports end the same way. *)
Lemma import_annotations_finished (env : Env) (request : Request)
    (rq_id pk format_name : string) (rq_func : RqFunc) (w : World)
    (format_desc : Format) (job : RqJob) (fd : Z) (tmp_file : string) :
  by_display_name (get_import_formats env) !! format_name = Some format_desc ->
  ENABLED format_desc = true ->
  rq w !! rq_id = Some job ->
  job_status job = FINISHED ->
  has_tmp_file job w fd tmp_file ->
  _import_annotations env request rq_id rq_func pk format_name w
  = (Ok (Response 201 DNone),
     log (EvDelete rq_id)
       (set_rq (delete rq_id)
          (set_fs (delete tmp_file)
             (set_fds (fun s => s ∖ {[fd]}) (log (EvFetch rq_id) w))))).
Proof.
  intros Hknown Henabled Hjob Hfinished Htmp. unfold _import_annotations.
  rewrite Hknown, Henabled. run_view. cbn. rewrite Hjob.
  unfold is_finished. rewrite Hfinished.
  by rewrite (close_and_remove_tmp_run job (log (EvFetch rq_id) w) fd tmp_file).
Qed.

(** X1. An annotation upload that finds no job stores the upload in a new
    temporary file and enqueues one job that knows the file. Once that job is
    finished, the next request under the same id is answered with 201, the
    job is gone, and files and descriptors are what they were before the
    upload. *)
Theorem annotation_upload_round_trip (env : Env) (request poll : Request)
    (rq_id pk format_name : string) (rq_func : RqFunc) (w0 : World)
    (format_desc : Format) (chunks : list string) (fd : Z) (suffix : string)
    (rest : list (Z * string)) :
  by_display_name (get_import_formats env) !! format_name = Some format_desc ->
  ENABLED format_desc = true ->
  rq w0 !! rq_id = None ->
  data request !! "annotation_file" = Some chunks ->
  tmp_supply w0 = (fd, suffix) :: rest ->
  av_scan_paths env (PosixPath.join (tmpdir env) ("cvat_" +:+ pk +:+ suffix)) = None ->
  fd ∉ fds w0 ->
  fs w0 !! PosixPath.join (tmpdir env) ("cvat_" +:+ pk +:+ suffix) = None ->
  exists job w1,
    _import_annotations env request rq_id rq_func pk format_name w0
      = (Ok (Response 202 DNone), w1)
    /\ rq w1 !! rq_id = Some job
    /\ forall w2 done,
         rq w2 !! rq_id = Some done ->
         job_status done = FINISHED ->
         job_meta done = job_meta job ->
         fs w2 = fs w1 -> fds w2 = fds w1 ->
         exists w3,
           _import_annotations env poll rq_id rq_func pk format_name w2
             = (Ok (Response 201 DNone), w3)
           /\ rq w3 !! rq_id = None
           /\ fs w3 = fs w0
           /\ fds w3 = fds w0.
Proof.
  intros Hknown Henabled Hnone Hfile Hsupply Hscan Hfd Hfresh.
  destruct (import_annotations_enqueues env request rq_id pk format_name rq_func w0
              format_desc chunks fd suffix rest Hknown Henabled Hnone Hfile Hsupply Hscan)
    as (job & w1 & Hrun & Hrq & Hfs & Hfds & _ & _ & Hmfd & Hmfile & _).
  exists job, w1. split; [exact Hrun|]. split; [by rewrite Hrq, lookup_insert_eq|].
  intros w2 done Hdone Hfinished Hmeta Hfs2 Hfds2.
  destruct (tmp_file_round_trip w0 fd _ Hfd Hfresh) as [Hfs0 Hfds0].
  eexists. split.
  - eapply import_annotations_finished
      with (fd := fd)
           (tmp_file := PosixPath.join (tmpdir env) ("cvat_" +:+ pk +:+ suffix));
      try eassumption.
    unfold has_tmp_file. rewrite Hmeta, Hfs2, Hfds2, Hfs, Hfds.
    repeat split; try assumption; [set_solver | by rewrite lookup_insert_eq].
  - cbn. split; [apply lookup_delete_eq|].
    by rewrite Hfs2, Hfds2, Hfs, Hfds.
Qed.

Lemma annotation_upload_round_trip_witness :
  exists job w1,
    _import_annotations Demo.env Demo.upload_request Demo.upload_id import_task_annotations
      "1" "CVAT 1.1" (Demo.world ∅ ∅ ∅)
    = (Ok (Response 202 DNone), w1)
    /\ rq w1 !! Demo.upload_id = Some job.
Proof.
  destruct (annotation_upload_round_trip Demo.env Demo.upload_request Demo.upload_request
              Demo.upload_id "1" "CVAT 1.1" import_task_annotations (Demo.world ∅ ∅ ∅)
              {| DISPLAY_NAME := "CVAT 1.1"; ENABLED := true |} ["<annotations/>"]
              7 "abc123" [])
    as (job & w1 & Hrun & Hjob & _);
    [reflexivity | reflexivity | reflexivity | vm_compute; reflexivity | reflexivity
    | reflexivity | apply not_elem_of_empty | reflexivity |].
  by exists job, w1.
Defined.

(** X2. While the job of an upload is neither finished nor failed, a
    repeated request is answered with 202 and changes nothing: no second job,
    no second temporary file. *)
Theorem annotation_upload_pending (env : Env) (request : Request)
    (rq_id pk format_name : string) (rq_func : RqFunc) (w : World)
    (format_desc : Format) (job : RqJob) :
  by_display_name (get_import_formats env) !! format_name = Some format_desc ->
  ENABLED format_desc = true ->
  rq w !! rq_id = Some job ->
  job_status job <> FINISHED ->
  job_status job <> FAILED ->
  _import_annotations env request rq_id rq_func pk format_name w
  = (Ok (Response 202 DNone), log (EvFetch rq_id) w).
Proof.
  intros Hknown Henabled Hjob Hnot_finished Hnot_failed. unfold _import_annotations.
  rewrite Hknown, Henabled. run_view. cbn. rewrite Hjob.
  unfold is_finished, is_failed. by destruct (job_status job).
Qed.

Lemma annotation_upload_pending_witness :
  _import_annotations Demo.env Demo.upload_request Demo.upload_id import_task_annotations
    "1" "CVAT 1.1" (Demo.upload_world STARTED None)
  = (Ok (Response 202 DNone), log (EvFetch Demo.upload_id) (Demo.upload_world STARTED None)).
Proof.
  apply (annotation_upload_pending Demo.env Demo.upload_request Demo.upload_id "1" "CVAT 1.1"
           import_task_annotations (Demo.upload_world STARTED None)
           {| DISPLAY_NAME := "CVAT 1.1"; ENABLED := true |}
           (Demo.job STARTED Demo.upload_meta None None));
    [reflexivity | reflexivity | vm_compute; reflexivity | discriminate | discriminate].
Defined.

(** X3. When the virus scan rejects an upload, the request fails with the
    scanner's [ValidationError] and no job is stored or enqueued; the
    temporary file written for the scan stays on disk and its descriptor
    stays open. *)
Theorem annotation_upload_rejected_by_scan (env : Env) (request : Request)
    (rq_id pk format_name : string) (rq_func : RqFunc) (w : World)
    (format_desc : Format) (chunks : list string) (fd : Z) (suffix : string)
    (rest : list (Z * string)) (detail : string) :
  by_display_name (get_import_formats env) !! format_name = Some format_desc ->
  ENABLED format_desc = true ->
  rq w !! rq_id = None ->
  data request !! "annotation_file" = Some chunks ->
  tmp_supply w = (fd, suffix) :: rest ->
  av_scan_paths env (PosixPath.join (tmpdir env) ("cvat_" +:+ pk +:+ suffix)) = Some detail ->
  exists w',
    _import_annotations env request rq_id rq_func pk format_name w
      = (Raise (ValidationError detail), w')
    /\ rq w' = rq w
    /\ trace w' = (trace w ++ [EvFetch rq_id])%list
    /\ fs w' !! PosixPath.join (tmpdir env) ("cvat_" +:+ pk +:+ suffix) = Some RegularFile
    /\ fd ∈ fds w'.
Proof.
  intros Hknown Henabled Hnone Hfile Hsupply Hscan. unfold _import_annotations.
  rewrite Hknown, Henabled. run_view. cbn. rewrite Hnone.
  unfold validated_file. rewrite Hfile. run_view.
  unfold mkstemp. cbn. rewrite Hsupply. cbn.
  change (("cvat_" +:+ pk) +:+ suffix) with ("cvat_" +:+ pk +:+ suffix).
  rewrite Hscan. cbn. eexists. split; [reflexivity|]. cbn.
  split; [reflexivity|]. split; [reflexivity|].
  split; [apply lookup_insert_eq | set_solver].
Qed.

(** ** Exports: asking twice, and downloading *)

Lemma export_annotations_no_job (env : Env) (db_instance : Instance) (rq_id : string)
    (request : Request) (format_name action : string) (callback : RqFunc)
    (filename : string) (w : World) (format_desc : Format) :
  action = "" \/ action = "download" ->
  by_display_name (get_export_formats env) !! format_name = Some format_desc ->
  ENABLED format_desc = true ->
  rq w !! rq_id = None ->
  _export_annotations env db_instance rq_id request format_name action callback filename w
  = export_enqueue env db_instance rq_id request format_name callback (log (EvFetch rq_id) w).
Proof.
  intros Haction Hknown Henabled Hnone. unfold _export_annotations.
  rewrite Hknown, Henabled.
  replace (negb (String.eqb action "" || String.eqb action "download")) with false
    by (by destruct Haction as [-> | ->]).
  run_view. cbn. by rewrite Hnone.
Qed.

(** X4. The first export request enqueues a job stamped with the time of
    the request. As long as the resource was not updated after that time, the
    same request made again finds the job waiting and is answered with 202
    without a second job being enqueued. *)
Theorem export_request_is_remembered (env : Env) (db_instance : Instance) (rq_id : string)
    (request : Request) (format_name action : string) (callback : RqFunc)
    (filename : string) (w0 : World) (format_desc : Format) :
  action = "" \/ action = "download" ->
  by_display_name (get_export_formats env) !! format_name = Some format_desc ->
  ENABLED format_desc = true ->
  rq w0 !! rq_id = None ->
  last_instance_update_time db_instance <= now w0 ->
  exists job w1,
    _export_annotations env db_instance rq_id request format_name action callback filename w0
      = (Ok (Response 202 DNone), w1)
    /\ rq w1 = <[rq_id := job]> (rq w0)
    /\ trace w1 = (trace w0 ++ [EvFetch rq_id; EvEnqueue rq_id job])%list
    /\ job_func job = callback
    /\ _export_annotations env db_instance rq_id request format_name action callback
         filename w1
       = (Ok (Response 202 DNone), log (EvFetch rq_id) w1).
Proof.
  intros Haction Hknown Henabled Hnone Hclock.
  rewrite (export_annotations_no_job env db_instance rq_id request format_name action
             callback filename w0 format_desc Haction Hknown Henabled Hnone).
  destruct (export_enqueue_run env db_instance rq_id request format_name callback
              (log (EvFetch rq_id) w0))
    as (job & Henq & Hstatus & Hfunc & _ & _ & Htime).
  rewrite Henq. do 2 eexists. split; [reflexivity|]. cbn.
  split; [reflexivity|]. split; [by rewrite <- app_assoc|]. split; [exact Hfunc|].
  erewrite export_annotations_cached with (job := job); try eassumption;
    [|cbn; apply lookup_insert_eq].
  unfold export_cached, is_outdated. rewrite Htime. run_view. cbn.
  rewrite (proj2 (Z.ltb_ge _ _) Hclock). unfold is_finished, is_failed.
  by rewrite Hstatus.
Qed.

Lemma export_request_is_remembered_witness :
  exists job w1,
    _export_annotations Demo.env (IsTask Demo.task) Demo.export_id
      (Demo.request "GET" {["format" := "CVAT 1.1"]}) "CVAT 1.1" ""
      export_task_annotations "" (Demo.world ∅ ∅ ∅)
    = (Ok (Response 202 DNone), w1)
    /\ rq w1 = <[Demo.export_id := job]> (rq (Demo.world ∅ ∅ ∅)).
Proof.
  destruct (export_request_is_remembered Demo.env (IsTask Demo.task) Demo.export_id
              (Demo.request "GET" {["format" := "CVAT 1.1"]}) "CVAT 1.1" ""
              export_task_annotations "" (Demo.world ∅ ∅ ∅)
              {| DISPLAY_NAME := "CVAT 1.1"; ENABLED := true |})
    as (job & w1 & Hrun & Hrq & _);
    [by left | reflexivity | reflexivity | reflexivity | cbn; lia |].
  by exists job, w1.
Defined.

(** X5. Asking about a finished export whose file is there leaves the job
    in place (201), so it can be asked again; downloading it deletes the job,
    sends the file under the name that was asked for, in lower case (the name
    being made of ASCII characters), and the next request for the same export
    starts a new job. *)
Theorem export_download_consumes_the_job (env : Env) (db_instance : Instance)
    (rq_id : string) (request : Request) (format_name : string) (callback : RqFunc)
    (filename : string) (w : World) (format_desc : Format) (job : RqJob) (t : Z)
    (file_path : string) :
  by_display_name (get_export_formats env) !! format_name = Some format_desc ->
  ENABLED format_desc = true ->
  rq w !! rq_id = Some job ->
  job_status job = FINISHED ->
  job_meta job !! "request_time" = Some (VTime t) ->
  last_instance_update_time db_instance <= t ->
  job_return_value job = Some file_path ->
  is_Some (fs w !! file_path) ->
  truthy filename = true ->
  is_ascii filename = true ->
  (exists w1,
     _export_annotations env db_instance rq_id request format_name "" callback filename w
       = (Ok (Response 201 DNone), w1)
     /\ rq w1 = rq w)
  /\ (exists w1 fresh w2,
        _export_annotations env db_instance rq_id request format_name "download" callback
          filename w
          = (Ok (Sendfile file_path (Some (lower filename))), w1)
        /\ rq w1 = delete rq_id (rq w)
        /\ fs w1 = fs w
        /\ _export_annotations env db_instance rq_id request format_name "download" callback
             filename w1
           = (Ok (Response 202 DNone), w2)
        /\ rq w2 !! rq_id = Some fresh
        /\ job_status fresh = QUEUED).
Proof.
  intros Hknown Henabled Hjob Hfinished Htime Hfresh Hvalue Hthere Hname _. split.
  - rewrite (export_annotations_cached env db_instance rq_id request format_name ""
               callback filename w format_desc job (or_introl eq_refl) Hknown Henabled Hjob).
    unfold export_cached, is_outdated. rewrite Htime. run_view.
    rewrite (proj2 (Z.ltb_ge _ _) Hfresh). unfold is_finished. rewrite Hfinished, Hvalue.
    cbn. rewrite bool_decide_eq_true_2 by exact Hthere.
    eexists. by split.
  - rewrite (export_annotations_cached env db_instance rq_id request format_name "download"
               callback filename w format_desc job (or_intror eq_refl) Hknown Henabled Hjob).
    unfold export_cached, is_outdated. rewrite Htime. run_view.
    rewrite (proj2 (Z.ltb_ge _ _) Hfresh). unfold is_finished. rewrite Hfinished, Hvalue.
    cbn. rewrite bool_decide_eq_true_2 by exact Hthere. cbn. rewrite Hname.
    eexists.
    destruct (export_enqueue_run env db_instance rq_id request format_name callback
                (log (EvFetch rq_id)
                   (log (EvDelete rq_id) (set_rq (delete rq_id) (log (EvFetch rq_id) w)))))
      as (fresh & Henq & Hstatus & _).
    exists fresh. eexists. split; [reflexivity|]. cbn.
    split; [reflexivity|]. split; [reflexivity|]. split.
    + rewrite (export_annotations_no_job env db_instance rq_id request format_name
                 "download" callback filename _ format_desc (or_intror eq_refl)
                 Hknown Henabled) by (cbn; apply lookup_delete_eq).
      exact Henq.
    + split; [cbn; apply lookup_insert_eq | exact Hstatus].
Qed.

(** X6. An action other than the empty one and [download] is refused with a
    [ValidationError] before anything else is looked at: whatever the format
    (known or not, enabled or not) and whatever the queue holds, nothing is
    read or changed. *)
Theorem export_rejects_other_actions (env : Env) (db_instance : Instance) (rq_id : string)
    (request : Request) (format_name action : string) (callback : RqFunc)
    (filename : string) (w : World) :
  action <> "" -> action <> "download" ->
  _export_annotations env db_instance rq_id request format_name action callback filename w
  = (Raise (ValidationError "Unexpected action specified for the request"), w).
Proof.
  intros Hempty Hdownload. unfold _export_annotations.
  apply String.eqb_neq in Hempty, Hdownload. by rewrite Hempty, Hdownload.
Qed.

Lemma export_rejects_other_actions_witness :
  _export_annotations Demo.env (IsTask Demo.task) Demo.export_id
    (Demo.request "GET" {["format" := "COCO 1.0"]}) "COCO 1.0" "import_status"
    export_task_annotations "" (Demo.world ∅ ∅ ∅)
  = (Raise (ValidationError "Unexpected action specified for the request"),
     Demo.world ∅ ∅ ∅).
Proof.
  apply (export_rejects_other_actions Demo.env (IsTask Demo.task) Demo.export_id
           (Demo.request "GET" {["format" := "COCO 1.0"]}) "COCO 1.0" "import_status"
           export_task_annotations "" (Demo.world ∅ ∅ ∅));
    discriminate.
Defined.

(** ** Browsing the share: what is looked at, and what is listed *)

Lemma append_cons (c : ascii) (a b : string) : String c a +:+ b = String c (a +:+ b).
Proof. reflexivity. Qed.

Lemma strip_prefix_Some (p s r : string) : strip_prefix p s = Some r <-> s = p +:+ r.
Proof.
  revert s. induction p as [|c p IH]; intros s.
  - cbn. split; [by intros [= ->] | by intros ->].
  - rewrite append_cons. destruct s as [|d s]; cbn -[Ascii.eqb]; [by split|].
    destruct (Ascii.eqb_spec c d) as [-> | Hne].
    + rewrite IH. split; [by intros -> | by intros [= ->]].
    + split; [discriminate | intros [= -> _]; by destruct Hne].
Qed.

(** X7. [share] reads and never writes: whatever the request, the world
    after the call is the world before it. *)
Theorem share_changes_nothing (env : Env) (request : Request) (w : World) :
  (ServerViewSet.share env request w).2 = w.
Proof.
  unfold ServerViewSet.share, scandir. run_view.
  destruct (startswith (SHARE_ROOT env) _ && _)%bool; [|reflexivity].
  by destruct (FileInfoSerializer env _).
Qed.

(** X8. When [share] answers with a listing (and the serializer passes its
    data on), the listing holds exactly the regular files, as REG, and the
    directories, as DIR, that lie directly in the directory examined: nothing
    from deeper down, nothing that is neither file nor directory. *)
Theorem share_lists_the_children (env : Env) (request : Request) (w w' : World)
    (listed : list (string * string)) :
  (forall l, FileInfoSerializer env l = Some l) ->
  ServerViewSet.share env request w = (Ok (Response 200 (DFiles listed)), w') ->
  forall name type,
    (name, type) ∈ listed
    <-> truthy name = true
        /\ has_slash name = false
        /\ exists node,
             fs w !! ((if endswith_slash
                            (ServerViewSet.share_directory env (query_get request "directory" "/"))
                       then ServerViewSet.share_directory env (query_get request "directory" "/")
                       else ServerViewSet.share_directory env (query_get request "directory" "/")
                            +:+ "/") +:+ name) = Some node
             /\ (node = RegularFile /\ type = "REG" \/ node = Directory /\ type = "DIR").
Proof.
  intros Hserializer. unfold ServerViewSet.share, ServerViewSet.share_directory, scandir.
  run_view.
  set (directory := PosixPath.abspath _ _).
  set (prefix := if endswith_slash directory then directory else directory +:+ "/").
  destruct (startswith (SHARE_ROOT env) directory && _)%bool; [|discriminate].
  rewrite Hserializer. intros [= <- _] name type.
  rewrite list_elem_of_omap. split.
  - intros ([name' node] & Hin & Hentry).
    apply list_elem_of_omap in Hin as ([path node'] & Hin & Hchild).
    apply elem_of_map_to_list in Hin. cbn in Hchild, Hentry.
    destruct (strip_prefix prefix path) as [child|] eqn:Hstrip; [|discriminate].
    apply strip_prefix_Some in Hstrip as ->.
    destruct (truthy child && negb (has_slash child))%bool eqn:Hgood; [|discriminate].
    injection Hchild as -> ->.
    apply andb_prop in Hgood as [Htruthy Hslash]. apply Bool.negb_true_iff in Hslash.
    destruct node; try discriminate; injection Hentry as -> <-;
      (split; [exact Htruthy|]; split; [exact Hslash|]); eexists; split; eauto.
  - intros (Htruthy & Hslash & node & Hnode & Hkind).
    exists (name, node). split.
    + apply list_elem_of_omap. exists (prefix +:+ name, node). split.
      * by apply elem_of_map_to_list.
      * cbn. rewrite (proj2 (strip_prefix_Some prefix _ name) eq_refl).
        by rewrite Htruthy, Hslash.
    + by destruct Hkind as [[-> ->] | [-> ->]].
Qed.

Lemma split_slash_no_slash (s : string) :
  Forall (fun c => has_slash c = false) (split_slash s).
Proof.
  induction s as [|c s IH]; cbn -[Ascii.eqb]; [by repeat constructor|].
  destruct (Ascii.eqb c "/") eqn:Hc; [by constructor|].
  destruct (split_slash s) as [|f fs]; [by repeat constructor; cbn -[Ascii.eqb]; rewrite Hc|].
  inversion IH; subst. constructor; [|assumption].
  cbn -[Ascii.eqb]. by rewrite Hc.
Qed.

Lemma Forall_removelast {A} (P : A -> Prop) (l : list A) :
  Forall P l -> Forall P (List.removelast l).
Proof.
  induction l as [|x l IH]; [done|]. intros Hall. inversion Hall; subst. cbn.
  destruct l; [constructor|]. constructor; [assumption | by apply IH].
Qed.

Lemma last_Forall {A} (P : A -> Prop) (l : list A) (d : A) :
  l <> [] -> Forall P l -> P (List.last l d).
Proof.
  induction l as [|x l IH]; [done|]. intros _ Hall. inversion Hall; subst. cbn.
  destruct l; [assumption|]. by apply IH.
Qed.

(** Below a root, [normpath] keeps only names. *)
Lemma norm_step_plain (init : nat) (new_comps : list string) (comp : string) :
  init <> 0%nat -> has_slash comp = false ->
  Forall plain_component new_comps ->
  Forall plain_component (PosixPath.norm_step init new_comps comp).
Proof.
  intros Hinit Hslash Hall. unfold PosixPath.norm_step.
  destruct (String.eqb_spec comp "") as [|Hempty]; [assumption|].
  destruct (String.eqb_spec comp ".") as [|Hdot]; [assumption|]. cbn.
  destruct (String.eqb_spec comp "..") as [->|Hup]; cbn.
  - destruct (Nat.eqb_spec init 0) as [|_]; [done|].
    destruct new_comps as [|c cs]; cbn [PosixPath.is_nil negb andb orb]; [constructor|].
    destruct (String.eqb_spec (List.last (c :: cs) "") "..") as [Hlast|_].
    + assert (Hplain : plain_component (List.last (c :: cs) ""))
        by (by apply last_Forall).
      rewrite Hlast in Hplain. by destruct Hplain as (_ & _ & _ & Hne).
    + by apply (Forall_removelast _ (c :: cs)).
  - apply Forall_app. split; [assumption|]. by repeat constructor.
Qed.

Lemma fold_norm_step_plain (init : nat) (comps new_comps : list string) :
  init <> 0%nat -> Forall (fun c => has_slash c = false) comps ->
  Forall plain_component new_comps ->
  Forall plain_component (fold_left (PosixPath.norm_step init) comps new_comps).
Proof.
  intros Hinit. revert new_comps.
  induction comps as [|c comps IH]; intros new_comps Hslash Hall; [assumption|].
  inversion Hslash; subst. cbn. apply IH; [assumption|]. by apply norm_step_plain.
Qed.

Lemma normpath_of_absolute (path : string) :
  startswith "/" path = true ->
  exists init comps,
    PosixPath.normpath path = PosixPath.slashes init +:+ join_slash comps
    /\ (init = 1 \/ init = 2)%nat
    /\ Forall plain_component comps.
Proof.
  intros Habs. unfold PosixPath.normpath.
  destruct path as [|c path]; [discriminate|]. cbn [truthy].
  set (init := PosixPath.initial_slashes (String c path)).
  assert (Hinit : (init = 1 \/ init = 2)%nat).
  { subst init. unfold PosixPath.initial_slashes. rewrite Habs.
    destruct (_ && _)%bool; [by right | by left]. }
  exists init, (fold_left (PosixPath.norm_step init) (split_slash (String c path)) []).
  split; [|split; [exact Hinit|]].
  - by destruct Hinit as [-> | ->].
  - apply fold_norm_step_plain; [lia | apply split_slash_no_slash | constructor].
Qed.

Lemma startswith_slash_app (a b : string) :
  startswith "/" a = true -> startswith "/" (a +:+ b) = true.
Proof. destruct a as [|c a]; [discriminate|]. by rewrite append_cons. Qed.

(** X9. With an absolute [SHARE_ROOT], the directory that [share] examines
    is always an absolute, normalized path: one or two slashes followed by
    names joined by slashes, none of them empty, [.] or [..]. An escape from
    the share can therefore not hide behind the string test. *)
Theorem share_directory_is_normalized (env : Env) (param : string) :
  startswith "/" (SHARE_ROOT env) = true ->
  exists init comps,
    ServerViewSet.share_directory env param = PosixPath.slashes init +:+ join_slash comps
    /\ (init = 1 \/ init = 2)%nat
    /\ Forall plain_component comps.
Proof.
  intros Hroot. unfold ServerViewSet.share_directory, PosixPath.abspath.
  set (p := if startswith "/" param then tail param else param).
  assert (Habs : startswith "/" (PosixPath.join (SHARE_ROOT env) p) = true).
  { unfold PosixPath.join. destruct (startswith "/" p) eqn:Hp; [exact Hp|].
    destruct (_ || _)%bool; by apply startswith_slash_app. }
  unfold PosixPath.isabs. rewrite Habs. by apply normpath_of_absolute.
Qed.

Lemma share_directory_is_normalized_witness :
  exists init comps,
    ServerViewSet.share_directory Demo.env "../../etc/./passwd"
    = PosixPath.slashes init +:+ join_slash comps
    /\ (init = 1 \/ init = 2)%nat
    /\ Forall plain_component comps.
Proof. apply (share_directory_is_normalized Demo.env "../../etc/./passwd"). reflexivity. Defined.

(** X10. Only one leading slash of the parameter is dropped. A parameter
    with one leading slash is read like the same parameter without it, and a
    parameter with two is read as an absolute path, in which [SHARE_ROOT]
    plays no part. *)
Theorem share_leading_slashes (env : Env) (rest : string) :
  (startswith "/" rest = false ->
   ServerViewSet.share_directory env ("/" +:+ rest) = ServerViewSet.share_directory env rest)
  /\ ServerViewSet.share_directory env ("//" +:+ rest) = PosixPath.normpath ("/" +:+ rest).
Proof.
  unfold ServerViewSet.share_directory. split.
  - intros Hrest. change ("/" +:+ rest) with (String "/" rest).
    change (startswith "/" (String "/" rest)) with true. cbn iota.
    change (tail (String "/" rest)) with rest. by rewrite Hrest.
  - reflexivity.
Qed.

Lemma share_leading_slashes_witness :
  ServerViewSet.share_directory Demo.env "/images" = ServerViewSet.share_directory Demo.env "images".
Proof. apply (share_leading_slashes Demo.env "images"). reflexivity. Defined.

Lemma annotation_upload_rejected_by_scan_witness :
  exists w',
    _import_annotations Demo.scanning_env Demo.upload_request Demo.upload_id
      import_task_annotations "1" "CVAT 1.1" (Demo.world ∅ ∅ ∅)
    = (Raise (ValidationError "Infected file"), w')
    /\ rq w' = ∅
    /\ fs w' !! "/tmp/cvat_1abc123" = Some RegularFile.
Proof.
  destruct (annotation_upload_rejected_by_scan Demo.scanning_env Demo.upload_request
              Demo.upload_id "1" "CVAT 1.1" import_task_annotations (Demo.world ∅ ∅ ∅)
              {| DISPLAY_NAME := "CVAT 1.1"; ENABLED := true |} ["<annotations/>"]
              7 "abc123" [] "Infected file")
    as (w' & Hrun & Hrq & _ & Hfile & _);
    [reflexivity | reflexivity | reflexivity | vm_compute; reflexivity | reflexivity
    | reflexivity |].
  exists w'. split; [exact Hrun|]. split; [exact Hrq | exact Hfile].
Defined.

Lemma export_download_consumes_the_job_witness :
  exists w1,
    _export_annotations Demo.env (IsTask Demo.task) Demo.export_id
      (Demo.request "GET" {["format" := "CVAT 1.1"]}) "CVAT 1.1" "download"
      export_task_annotations "Task.ZIP"
      (Demo.export_world (Demo.export_job FINISHED 20 None (Some "/data/cache/export.zip"))
         {["/data/cache/export.zip" := RegularFile]})
    = (Ok (Sendfile "/data/cache/export.zip" (Some "task.zip")), w1)
    /\ rq w1 = ∅.
Proof.
  destruct (export_download_consumes_the_job Demo.env (IsTask Demo.task) Demo.export_id
              (Demo.request "GET" {["format" := "CVAT 1.1"]}) "CVAT 1.1"
              export_task_annotations "Task.ZIP"
              (Demo.export_world
                 (Demo.export_job FINISHED 20 None (Some "/data/cache/export.zip"))
                 {["/data/cache/export.zip" := RegularFile]})
              {| DISPLAY_NAME := "CVAT 1.1"; ENABLED := true |}
              (Demo.export_job FINISHED 20 None (Some "/data/cache/export.zip"))
              20 "/data/cache/export.zip")
    as (_ & w1 & fresh & w2 & Hrun & Hrq & _);
    [reflexivity | reflexivity | vm_compute; reflexivity | reflexivity | reflexivity
    | cbn; lia | reflexivity | by eexists | reflexivity | reflexivity |].
  exists w1. split; [exact Hrun|]. rewrite Hrq. vm_compute. reflexivity.
Defined.

(** ** Serving data: what the getter lets through *)

Section GetterMore.
Context (int : string -> option Z) (USE_CACHE : bool) (get_chunk_number : Z -> Z).

(** [__init__] lets only the four known types through. *)
Lemma init_type (data_type data_num : option string) (data_quality task_dim : string)
    (data_getter : DataChunkGetter.t) :
  DataChunkGetter.__init__ int data_type data_num data_quality task_dim = Ok data_getter ->
  DataChunkGetter.mem (DataChunkGetter.type data_getter)
    DataChunkGetter.possible_data_type_values = true.
Proof.
  unfold DataChunkGetter.__init__.
  destruct (negb (truthy (default "" data_type)) || _)%bool eqn:Hbad; [discriminate|].
  apply Bool.orb_false_iff in Hbad as [_ Hmem]. apply Bool.negb_false_iff in Hmem.
  destruct (_ && negb (truthy _))%bool; [discriminate|].
  destruct (_ && negb (DataChunkGetter.mem data_quality _))%bool; [discriminate|].
  destruct (truthy (default "" data_num)); [destruct (int _); [|discriminate]|];
    by intros [= <-].
Qed.

(** X11. A getter that [__init__] has built never reaches the last branch
    of [__call__]: the answer 'unknown data type' is never given. *)
Theorem unknown_type_is_never_answered (data_type data_num : option string)
    (data_quality task_dim : string) (start stop : Z) (db_data : option bool)
    (status : Z) (detail : string) :
  DataChunkGetter.serve int USE_CACHE get_chunk_number data_type data_num data_quality
    task_dim start stop db_data
  <> Ok (DataChunkGetter.UnknownType status detail).
Proof.
  unfold DataChunkGetter.serve.
  destruct (DataChunkGetter.__init__ int data_type data_num data_quality task_dim)
    as [data_getter|e] eqn:Hinit; [|discriminate].
  apply init_type in Hinit.
  unfold DataChunkGetter.mem, DataChunkGetter.possible_data_type_values in Hinit.
  cbn [existsb] in Hinit.
  unfold DataChunkGetter.__call__, DataChunkGetter.out_of_range.
  destruct db_data as [storage_is_cache|]; [|discriminate].
  destruct (String.eqb (DataChunkGetter.type data_getter) "chunk").
  { destruct (DataChunkGetter.number data_getter); [|discriminate].
    destruct (negb _); [discriminate|]. by destruct (USE_CACHE && storage_is_cache)%bool. }
  destruct (String.eqb (DataChunkGetter.type data_getter) "frame").
  { destruct (DataChunkGetter.number data_getter); [|discriminate].
    by destruct (negb _). }
  destruct (String.eqb (DataChunkGetter.type data_getter) "preview"); [discriminate|].
  destruct (String.eqb (DataChunkGetter.type data_getter) "context_image"); [|discriminate].
  destruct (DataChunkGetter.number data_getter); [|discriminate].
  by destruct (negb _).
Qed.

(** X12. The preview does not depend on quality, range or storage: with
    data present it is served whenever the number is absent or a number. But
    a number that is given is still converted, so one that is not a number
    fails the request with a [ValueError]. *)
Theorem preview_is_served (data_num : option string) (data_quality task_dim : string)
    (start stop : Z) (storage_is_cache : bool) :
  DataChunkGetter.serve int USE_CACHE get_chunk_number (Some "preview") data_num data_quality
    task_dim start stop (Some storage_is_cache)
  = if truthy (default "" data_num)
    then match int (default "" data_num) with
         | Some _ => Ok DataChunkGetter.Preview
         | None => Raise ValueError
         end
    else Ok DataChunkGetter.Preview.
Proof.
  unfold DataChunkGetter.serve, DataChunkGetter.__init__. cbn.
  destruct (truthy (default "" data_num)); [|reflexivity].
  by destruct (int (default "" data_num)).
Qed.

(** X13. The two [data] actions differ on a task without data. Once the
    parameters have passed [__init__], the action of a job hands [None] to
    the getter and answers [NotFound], while the action of a task reads
    [start_frame] off [None] first and fails with an [AttributeError]. *)
Theorem data_actions_without_data (query_params : gmap string string) (dimension : string)
    (segment : DataViews.Segment) (data_getter : DataChunkGetter.t) :
  DataChunkGetter.__init__ int (query_params !! "type") (query_params !! "number")
    (default "compressed" (query_params !! "quality")) dimension = Ok data_getter ->
  DataViews.job_data int USE_CACHE get_chunk_number query_params dimension segment None
    = DataViews.Got (Raise (NotFound "Cannot find requested data"))
  /\ DataViews.task_data int USE_CACHE get_chunk_number query_params dimension None
    = DataViews.AttributeError.
Proof.
  intros Hinit. unfold DataViews.job_data, DataViews.task_data. by rewrite Hinit.
Qed.

End GetterMore.

Lemma data_actions_without_data_witness :
  DataViews.job_data Demo.int true Demo.get_chunk_number
    (<["number" := "3"]> {["type" := "frame"]}) "2d"
    {| DataViews.segment_start_frame := 0; DataViews.segment_stop_frame := 9 |} None
  = DataViews.Got (Raise (NotFound "Cannot find requested data"))
  /\ DataViews.task_data Demo.int true Demo.get_chunk_number
       (<["number" := "3"]> {["type" := "frame"]}) "2d" None
     = DataViews.AttributeError.
Proof.
  apply (data_actions_without_data Demo.int true Demo.get_chunk_number
           (<["number" := "3"]> {["type" := "frame"]}) "2d"
           {| DataViews.segment_start_frame := 0; DataViews.segment_stop_frame := 9 |}
           {| DataChunkGetter.type := "frame"; DataChunkGetter.number := Some 3;
              DataChunkGetter.quality := DataChunkGetter.COMPRESSED;
              DataChunkGetter.dimension := "2d" |}).
  vm_compute. reflexivity.
Defined.

(** ** Destroying a task: what is left alone *)

(** X14. Destroying a task leaves alone the rows of the other tasks, the
    rows of the data the task did not have, every file outside the task's and
    its data's directories, and the other projects; the project of the task,
    if it has one and its data could be read, is stamped with the day. *)
Theorem perform_destroy_leaves_the_rest (get_task_dirname get_data_dirname : Z -> string)
    (instance : Db.TaskObj) (s : Db.Store) :
  (forall t, t <> Db.pk instance ->
     Db.tasks (TaskViewSet.perform_destroy get_task_dirname get_data_dirname instance s).2
       !! t = Db.tasks s !! t)
  /\ (forall d, Db.obj_data instance <> Some d ->
        Db.datas (TaskViewSet.perform_destroy get_task_dirname get_data_dirname instance s).2
          !! d = Db.datas s !! d)
  /\ (forall p,
        PosixPath.under (get_task_dirname (Db.pk instance)) p = false ->
        (forall d, Db.obj_data instance = Some d ->
                   PosixPath.under (get_data_dirname d) p = false) ->
        Db.files (TaskViewSet.perform_destroy get_task_dirname get_data_dirname instance s).2
          !! p = Db.files s !! p)
  /\ (forall q, Db.obj_project instance <> Some q ->
        Db.projects (TaskViewSet.perform_destroy get_task_dirname get_data_dirname
                       instance s).2 !! q = Db.projects s !! q)
  /\ (forall q,
        Db.obj_project instance = Some q ->
        (TaskViewSet.perform_destroy get_task_dirname get_data_dirname instance s).1 = Ok tt ->
        Db.projects (TaskViewSet.perform_destroy get_task_dirname get_data_dirname
                       instance s).2 !! q = Some (Db.today s)).
Proof.
  unfold TaskViewSet.perform_destroy.
  set (s1 := Db.rmtree (get_task_dirname (Db.pk instance))
               (Db.set_tasks (delete (Db.pk instance)) s)).
  repeat apply conj.
  - intros t Hne.
    assert (H1 : Db.tasks s1 !! t = Db.tasks s !! t) by (by apply lookup_delete_ne).
    destruct (Db.obj_data instance) as [d|]; [|by destruct (Db.obj_project instance)].
    destruct (Db.datas s1 !! d); [|exact H1].
    destruct (bool_decide _); by destruct (Db.obj_project instance).
  - intros d Hne.
    destruct (Db.obj_data instance) as [d'|]; [|by destruct (Db.obj_project instance)].
    destruct (Db.datas s1 !! d'); [|reflexivity].
    destruct (bool_decide _); destruct (Db.obj_project instance); cbn; try reflexivity;
      apply lookup_delete_ne; congruence.
  - intros p Htask Hdata.
    assert (H1 : Db.files s1 !! p = Db.files s !! p)
      by (by apply (rmtree_kept _ _ (Db.set_tasks (delete (Db.pk instance)) s))).
    destruct (Db.obj_data instance) as [d|]; [|by destruct (Db.obj_project instance)].
    destruct (Db.datas s1 !! d); [|exact H1].
    destruct (bool_decide _); destruct (Db.obj_project instance); cbn; try exact H1;
      (rewrite <- H1; apply (rmtree_kept _ _ s1); by apply Hdata).
  - intros q Hne.
    destruct (Db.obj_data instance) as [d|].
    + destruct (Db.datas s1 !! d); [|reflexivity].
      destruct (bool_decide _); destruct (Db.obj_project instance) as [q'|]; cbn;
        try reflexivity; apply lookup_insert_ne; congruence.
    + destruct (Db.obj_project instance) as [q'|]; cbn; [|reflexivity].
      apply lookup_insert_ne; congruence.
  - intros q -> Hok.
    destruct (Db.obj_data instance) as [d|]; [|apply lookup_insert_eq].
    destruct (Db.datas s1 !! d); [|discriminate].
    destruct (bool_decide _); apply lookup_insert_eq.
Qed.

Lemma perform_destroy_leaves_the_rest_witness :
  Db.files (TaskViewSet.perform_destroy Demo.get_task_dirname Demo.get_data_dirname
              {| Db.pk := 1; Db.obj_data := None; Db.obj_project := None |} Demo.store).2
    !! "/data/data/7/raw/0.png" = Some RegularFile.
Proof.
  destruct (perform_destroy_leaves_the_rest Demo.get_task_dirname Demo.get_data_dirname
              {| Db.pk := 1; Db.obj_data := None; Db.obj_project := None |} Demo.store)
    as (_ & _ & Hfiles & _).
  rewrite (Hfiles "/data/data/7/raw/0.png"); [reflexivity | reflexivity | discriminate].
Defined.

(** ** Who gets which serializer of users *)

(** X15. Someone who is not staff gets the full serializer of users only
    on a safe method and only for their own record (the key in the URL is
    their id) or under the action [self]; staff always gets it; and for
    someone who is not staff a key that is not a number fails the request
    with a [ValueError], also under the action [self]. *)
Theorem user_serializer_choice (int : string -> option Z) (user : UserViewSet.User)
    (kwargs_pk : option string) (action method : string) :
  (UserViewSet.is_staff user = true ->
   UserViewSet.get_serializer_class int user kwargs_pk action method
     = Ok UserViewSet.UserSerializer)
  /\ (UserViewSet.is_staff user = false ->
      UserViewSet.get_serializer_class int user kwargs_pk action method
        = Ok UserViewSet.UserSerializer ->
      method ∈ UserViewSet.SAFE_METHODS
      /\ (action = "self"
          \/ (exists s n, kwargs_pk = Some s /\ int s = Some n /\ UserViewSet.id user = Some n)
          \/ (kwargs_pk = None /\ UserViewSet.id user = Some 0)))
  /\ (forall s,
        UserViewSet.is_staff user = false -> kwargs_pk = Some s -> int s = None ->
        UserViewSet.get_serializer_class int user kwargs_pk action method = Raise ValueError).
Proof.
  unfold UserViewSet.get_serializer_class. repeat apply conj.
  - by intros ->.
  - intros -> Hfull.
    destruct (match kwargs_pk with Some s => int s | None => Some 0 end) as [n|] eqn:Hpk;
      [|discriminate].
    destruct ((bool_decide (Some n = UserViewSet.id user) || String.eqb action "self")
              && existsb (String.eqb method) UserViewSet.SAFE_METHODS)%bool eqn:Hcond;
      [|discriminate].
    apply andb_prop in Hcond as [Hself Hsafe]. split.
    + apply existsb_exists in Hsafe as (m & Hin & Heq).
      apply String.eqb_eq in Heq as ->. by apply list_elem_of_In.
    + apply Bool.orb_true_iff in Hself as [Hid | Haction].
      * apply bool_decide_eq_true in Hid. right.
        destruct kwargs_pk as [s|]; [left; by exists s, n | right].
        injection Hpk as <-. by split.
      * left. by apply String.eqb_eq.
  - intros s -> -> Hbad. by rewrite Hbad.
Qed.

Lemma user_serializer_choice_witness :
  UserViewSet.get_serializer_class Demo.int
    {| UserViewSet.is_staff := false; UserViewSet.id := Some 4 |} (Some "x4") "retrieve" "GET"
  = Raise ValueError.
Proof.
  destruct (user_serializer_choice Demo.int
              {| UserViewSet.is_staff := false; UserViewSet.id := Some 4 |}
              (Some "x4") "retrieve" "GET") as (_ & _ & Hbad).
  by apply (Hbad "x4").
Defined.

(** ** The handler of failed jobs *)

Lemma split_slash_app (a b : string) :
  has_slash a = false -> split_slash (a +:+ "/" +:+ b) = a :: split_slash b.
Proof.
  induction a as [|c a IH]; [reflexivity|]. cbn -[Ascii.eqb].
  intros Hno. apply Bool.orb_false_iff in Hno as [Hc Ha].
  rewrite append_cons. cbn -[Ascii.eqb]. by rewrite Hc, (IH Ha).
Qed.

Lemma split_slash_plain (a : string) : has_slash a = false -> split_slash a = [a].
Proof.
  induction a as [|c a IH]; [reflexivity|]. cbn -[Ascii.eqb].
  intros Hno. apply Bool.orb_false_iff in Hno as [Hc Ha].
  by rewrite Hc, (IH Ha).
Qed.

Lemma append_assoc (a b c : string) : (a +:+ b) +:+ c = a +:+ b +:+ c.
Proof. induction a as [|x a IH]; [reflexivity|]. by rewrite !append_cons, IH. Qed.

Lemma not_tasks_with_at (user : string) : String.eqb "tasks" (user +:+ "@") = false.
Proof.
  apply String.eqb_neq. intros H.
  do 6 (destruct user as [|? user]; [discriminate || (injection H; congruence)|]).
  discriminate.
Qed.

(** X16. [rq_handler] writes the text of the exception into the job and
    then decides by the id: a job whose id has [tasks] among its parts
    between slashes (the exports and uploads of tasks) is handed on to the
    handler of tasks; the import of a project and the upload for a job (for a
    key other than [tasks]) are not, and the handler answers [True]. *)
Theorem rq_handler_routes (task_rq_handler : string -> RqJob -> RqHandler.Raised -> M bool)
    (job : RqJob) (e : RqHandler.Raised) (w : World) (pk user rest : string) :
  RqHandler.rq_handler task_rq_handler ("/api/tasks/" +:+ rest) job e w
    = task_rq_handler ("/api/tasks/" +:+ rest)
        (RqHandler.with_exc_info (Some (RqHandler.format_exception_only e)) job) e
        (set_rq (insert ("/api/tasks/" +:+ rest)
                   (RqHandler.with_exc_info (Some (RqHandler.format_exception_only e)) job)) w)
  /\ (valid_pk pk -> has_slash user = false ->
      RqHandler.rq_handler task_rq_handler
        (user +:+ "@/api/tasks/" +:+ pk +:+ "/annotations/upload") job e w
      = task_rq_handler (user +:+ "@/api/tasks/" +:+ pk +:+ "/annotations/upload")
          (RqHandler.with_exc_info (Some (RqHandler.format_exception_only e)) job) e
          (set_rq (insert (user +:+ "@/api/tasks/" +:+ pk +:+ "/annotations/upload")
                     (RqHandler.with_exc_info (Some (RqHandler.format_exception_only e)) job))
             w))
  /\ (valid_pk pk -> pk <> "tasks" ->
      RqHandler.rq_handler task_rq_handler (project_import_id pk) job e w
      = (Ok true,
         set_rq (insert (project_import_id pk)
                   (RqHandler.with_exc_info (Some (RqHandler.format_exception_only e)) job)) w))
  /\ (valid_pk pk -> pk <> "tasks" -> has_slash user = false ->
      RqHandler.rq_handler task_rq_handler
        (user +:+ "@/api/jobs/" +:+ pk +:+ "/annotations/upload") job e w
      = (Ok true,
         set_rq (insert (user +:+ "@/api/jobs/" +:+ pk +:+ "/annotations/upload")
                   (RqHandler.with_exc_info (Some (RqHandler.format_exception_only e)) job))
           w)).
Proof.
  assert (Hat : has_slash user = false -> has_slash (user +:+ "@") = false).
  { intros Hu. induction user as [|c u IH]; [reflexivity|].
    rewrite append_cons. cbn -[Ascii.eqb] in *.
    apply Bool.orb_false_iff in Hu as [Hc Hu]. by rewrite Hc, (IH Hu). }
  unfold RqHandler.rq_handler. run_view. repeat apply conj.
  - change ("/api/tasks/" +:+ rest) with ("" +:+ "/" +:+ "api" +:+ "/" +:+ "tasks" +:+ "/" +:+ rest).
    by rewrite !split_slash_app.
  - intros [_ Hpk] Huser.
    change (user +:+ "@/api/tasks/" +:+ pk +:+ "/annotations/upload")
      with (user +:+ "@" +:+ "/" +:+ "api" +:+ "/" +:+ "tasks" +:+ "/" +:+ pk +:+ "/"
            +:+ "annotations" +:+ "/" +:+ "upload").
    rewrite <- (append_assoc user "@").
    rewrite (split_slash_app (user +:+ "@")) by (by apply Hat).
    rewrite !split_slash_app by done.
    unfold RqHandler.mem. cbn -[String.eqb]. rewrite not_tasks_with_at. reflexivity.
  - intros [_ Hpk] Hne. unfold project_import_id.
    change ("/api/project/" +:+ pk +:+ "/dataset_import")
      with ("" +:+ "/" +:+ "api" +:+ "/" +:+ "project" +:+ "/" +:+ pk +:+ "/" +:+ "dataset_import").
    rewrite !split_slash_app, split_slash_plain by done.
    unfold RqHandler.mem. cbn -[String.eqb].
    apply not_eq_sym, String.eqb_neq in Hne. by rewrite Hne.
  - intros [_ Hpk] Hne Huser.
    change (user +:+ "@/api/jobs/" +:+ pk +:+ "/annotations/upload")
      with (user +:+ "@" +:+ "/" +:+ "api" +:+ "/" +:+ "jobs" +:+ "/" +:+ pk +:+ "/"
            +:+ "annotations" +:+ "/" +:+ "upload").
    rewrite <- (append_assoc user "@").
    rewrite (split_slash_app (user +:+ "@")) by (by apply Hat).
    rewrite !split_slash_app, split_slash_plain by done.
    unfold RqHandler.mem. cbn -[String.eqb]. rewrite not_tasks_with_at.
    apply not_eq_sym, String.eqb_neq in Hne. by rewrite Hne.
Qed.

Lemma rq_handler_routes_witness :
  RqHandler.rq_handler (fun _ _ _ => mret false) "/api/project/3/dataset_import"
    (Demo.job FAILED Demo.upload_meta None None)
    {| RqHandler.exc_module := "builtins"; RqHandler.exc_qualname := "ValueError";
       RqHandler.exc_str := "bad file" |}
    (Demo.world ∅ ∅ ∅)
  = (Ok true,
     set_rq (insert "/api/project/3/dataset_import"
               (Demo.job FAILED Demo.upload_meta (Some (String.append "ValueError: bad file"
                                                          (String "010" EmptyString))) None))
       (Demo.world ∅ ∅ ∅)).
Proof.
  destruct (rq_handler_routes (fun _ _ _ => mret false)
              (Demo.job FAILED Demo.upload_meta None None)
              {| RqHandler.exc_module := "builtins"; RqHandler.exc_qualname := "ValueError";
                 RqHandler.exc_str := "bad file" |}
              (Demo.world ∅ ∅ ∅) "3" "admin1" "") as (_ & _ & Hproject & _).
  apply Hproject; [by split | discriminate].
Defined.

(** ** From the exception of the worker to the answer of the upload *)










(** ** Importing a project: from the POST to the poll *)

Lemma dataset_import_status_finished (env : Env) (db_project : Project) (request : Request)
    (pk : string) (w : World) (job : RqJob) (fd : Z) (tmp_file : string) :
  method request = "GET" ->
  lower (query_get request "action" "") = "import_status" ->
  rq w !! project_import_id pk = Some job ->
  job_status job = FINISHED ->
  has_tmp_file job w fd tmp_file ->
  ProjectViewSet.dataset env db_project request pk w
  = (Ok (Response 201 DNone),
     log (EvDelete (project_import_id pk))
       (set_rq (delete (project_import_id pk))
          (set_fs (delete tmp_file)
             (set_fds (fun s => s ∖ {[fd]}) (log (EvFetch (project_import_id pk)) w))))).
Proof.
  intros Hget Haction Hjob Hfinished Htmp. unfold ProjectViewSet.dataset.
  rewrite Hget, Haction. cbn [String.eqb Ascii.eqb Bool.eqb].
  change ("/api/project/" +:+ pk +:+ "/dataset_import") with (project_import_id pk).
  run_view. cbn. rewrite Hjob. unfold is_finished. rewrite Hfinished.
  by rewrite (close_and_remove_tmp_run job (log (EvFetch (project_import_id pk)) w)
                fd tmp_file).
Qed.

(** X18. A project import goes full circle. The POST stores the dataset in
    a new temporary file and enqueues the job; once the job is finished, the
    poll with [action=import_status] answers 201 and leaves no job, and files
    and descriptors as they were before the POST; the poll after that one
    finds nothing (404), and a new import can be posted. *)
Theorem project_import_round_trip (env : Env) (db_project : Project) (post poll : Request)
    (pk : string) (w0 : World) (format_desc : Format) (chunks : list string) (fd : Z)
    (suffix : string) (rest : list (Z * string)) :
  method post = "POST" ->
  by_display_name (get_import_formats env) !! query_get post "format" "" = Some format_desc ->
  ENABLED format_desc = true ->
  rq w0 !! project_import_id pk = None ->
  data post !! "dataset_file" = Some chunks ->
  tmp_supply w0 = (fd, suffix) :: rest ->
  fd ∉ fds w0 ->
  fs w0 !! PosixPath.join (tmpdir env) ("cvat_" +:+ pk +:+ suffix) = None ->
  method poll = "GET" ->
  lower (query_get poll "action" "") = "import_status" ->
  exists job w1,
    ProjectViewSet.dataset env db_project post pk w0 = (Ok (Response 202 DNone), w1)
    /\ rq w1 !! project_import_id pk = Some job
    /\ forall w2 done,
         rq w2 !! project_import_id pk = Some done ->
         job_status done = FINISHED ->
         job_meta done = job_meta job ->
         fs w2 = fs w1 -> fds w2 = fds w1 ->
         exists w3,
           ProjectViewSet.dataset env db_project poll pk w2 = (Ok (Response 201 DNone), w3)
           /\ rq w3 !! project_import_id pk = None
           /\ fs w3 = fs w0
           /\ fds w3 = fds w0
           /\ ProjectViewSet.dataset env db_project poll pk w3
              = (Ok (Response 404 DNone), log (EvFetch (project_import_id pk)) w3).
Proof.
  intros Hpost Hknown Henabled Hnone Hfile Hsupply Hfd Hfresh Hget Haction.
  assert (Hview : ProjectViewSet.dataset env db_project post pk w0
                  = _import_project_dataset env post (project_import_id pk)
                      import_dataset_as_project pk (query_get post "format" "") w0).
  { unfold ProjectViewSet.dataset. by rewrite Hpost. }
  rewrite Hview. clear Hview.
  unfold _import_project_dataset. rewrite Hknown, Henabled. run_view. cbn. rewrite Hnone.
  unfold validated_file. rewrite Hfile. run_view. unfold mkstemp. cbn. rewrite Hsupply. cbn.
  change (("cvat_" +:+ pk) +:+ suffix) with ("cvat_" +:+ pk +:+ suffix).
  do 2 eexists. split; [reflexivity|]. cbn. split; [apply lookup_insert_eq|].
  intros w2 done Hdone Hfinished Hmeta Hfs2 Hfds2.
  destruct (tmp_file_round_trip w0 fd _ Hfd Hfresh) as [Hfs0 Hfds0].
  rewrite (dataset_import_status_finished env db_project poll pk w2 done fd
             (PosixPath.join (tmpdir env) ("cvat_" +:+ pk +:+ suffix))
             Hget Haction Hdone Hfinished).
  - eexists. split; [reflexivity|]. cbn. split; [apply lookup_delete_eq|].
    split; [by rewrite Hfs2|]. split; [by rewrite Hfds2|].
    unfold ProjectViewSet.dataset. rewrite Hget, Haction. cbn [String.eqb Ascii.eqb Bool.eqb].
    change ("/api/project/" +:+ pk +:+ "/dataset_import") with (project_import_id pk).
    run_view. cbn. by rewrite lookup_delete_eq.
  - unfold has_tmp_file. rewrite Hmeta, Hfs2, Hfds2. cbn.
    repeat split; [set_solver | apply lookup_insert_eq].
Qed.

Lemma project_import_round_trip_witness :
  exists job w1,
    ProjectViewSet.dataset Demo.env Demo.project Demo.dataset_post "3" (Demo.world ∅ ∅ ∅)
    = (Ok (Response 202 DNone), w1)
    /\ rq w1 !! "/api/project/3/dataset_import" = Some job.
Proof.
  destruct (project_import_round_trip Demo.env Demo.project Demo.dataset_post
              (Demo.request "GET" {["action" := "import_status"]}) "3" (Demo.world ∅ ∅ ∅)
              {| DISPLAY_NAME := "CVAT 1.1"; ENABLED := true |} ["PK"] 7 "abc123" [])
    as (job & w1 & Hrun & Hjob & _);
    [reflexivity | vm_compute; reflexivity | reflexivity | reflexivity
    | vm_compute; reflexivity | reflexivity | apply not_elem_of_empty | reflexivity
    | reflexivity | vm_compute; reflexivity |].
  by exists job, w1.
Defined.

(** ** Formats that share a name *)

Lemma by_display_name_keeps (formats : list Format) (d : gmap string Format) (f : Format) :
  d !! DISPLAY_NAME f = Some f ->
  Forall (fun g => DISPLAY_NAME g <> DISPLAY_NAME f) formats ->
  fold_left (fun d g => <[DISPLAY_NAME g := g]> d) formats d !! DISPLAY_NAME f = Some f.
Proof.
  revert d. induction formats as [|g formats IH]; intros d Hd Hall; [exact Hd|].
  inversion Hall; subst. cbn. apply IH; [|assumption].
  by rewrite lookup_insert_ne.
Qed.

(** X19. The format a name stands for is a registered format of that name,
    and when several registered formats bear the name it is the one
    registered last: that one decides whether the format is enabled. *)
Theorem last_registered_format_wins (before after : list Format) (f : Format) :
  Forall (fun g => DISPLAY_NAME g <> DISPLAY_NAME f) after ->
  by_display_name (before ++ f :: after) !! DISPLAY_NAME f = Some f.
Proof.
  intros Hafter. unfold by_display_name. rewrite fold_left_app. cbn.
  apply by_display_name_keeps; [apply lookup_insert_eq | exact Hafter].
Qed.

Lemma last_registered_format_wins_witness :
  by_display_name
    ([{| DISPLAY_NAME := "COCO 1.0"; ENABLED := false |}]
     ++ {| DISPLAY_NAME := "COCO 1.0"; ENABLED := true |}
     :: [{| DISPLAY_NAME := "CVAT 1.1"; ENABLED := true |}])
    !! "COCO 1.0"
  = Some {| DISPLAY_NAME := "COCO 1.0"; ENABLED := true |}.
Proof.
  apply (last_registered_format_wins
           [{| DISPLAY_NAME := "COCO 1.0"; ENABLED := false |}]
           [{| DISPLAY_NAME := "CVAT 1.1"; ENABLED := true |}]
           {| DISPLAY_NAME := "COCO 1.0"; ENABLED := true |}).
  repeat constructor. discriminate.
Defined.

(** ** The plug-ins of the server *)

(** X20. [plugins] reports ANALYTICS and MODELS as switched on exactly when
    [CVAT_ANALYTICS] and [CVAT_SERVERLESS] hold one of the words for true
    (in any case of letters), both being off when the variables are not set;
    and it fails with a [ValueError] when [CVAT_ANALYTICS] holds anything
    that is no word for true or false, the empty string included. *)
Theorem plugins_flags (environ : gmap string string) (is_installed : string -> bool) :
  (forall response,
     Plugins.plugins environ is_installed = Ok response ->
     response !! "ANALYTICS"
       = Some (existsb (String.eqb (lower (default "0" (environ !! "CVAT_ANALYTICS"))))
                 ["y"; "yes"; "t"; "true"; "on"; "1"])
     /\ response !! "MODELS"
       = Some (existsb (String.eqb (lower (default "0" (environ !! "CVAT_SERVERLESS"))))
                 ["y"; "yes"; "t"; "true"; "on"; "1"])
     /\ response !! "GIT_INTEGRATION" = Some (is_installed "cvat.apps.dataset_repo")
     /\ response !! "PREDICT" = Some (is_installed "cvat.apps.training"))
  /\ (environ !! "CVAT_ANALYTICS" = None -> environ !! "CVAT_SERVERLESS" = None ->
      exists response,
        Plugins.plugins environ is_installed = Ok response
        /\ response !! "ANALYTICS" = Some false /\ response !! "MODELS" = Some false)
  /\ (forall value,
        environ !! "CVAT_ANALYTICS" = Some value ->
        existsb (String.eqb (lower value))
          ["y"; "yes"; "t"; "true"; "on"; "1"; "n"; "no"; "f"; "false"; "off"; "0"] = false ->
        Plugins.plugins environ is_installed = Raise ValueError).
Proof.
  unfold Plugins.plugins, Plugins.strtobool. repeat apply conj.
  - intros response.
    destruct (existsb (String.eqb (lower (default "0" (environ !! "CVAT_ANALYTICS")))) _);
      [|destruct (existsb _ _); [|discriminate]];
      (destruct (existsb (String.eqb (lower (default "0" (environ !! "CVAT_SERVERLESS")))) _);
       [|destruct (existsb _ _); [|discriminate]]);
      intros [= <-]; repeat split; by simplify_map_eq.
  - intros -> ->. cbn. eexists. split; [reflexivity|]. split; by simplify_map_eq.
  - intros value -> Hbad. change (default "0" (Some value)) with value.
    change ["y"; "yes"; "t"; "true"; "on"; "1"; "n"; "no"; "f"; "false"; "off"; "0"]
      with (["y"; "yes"; "t"; "true"; "on"; "1"] ++ ["n"; "no"; "f"; "false"; "off"; "0"])%list
      in Hbad.
    rewrite existsb_app in Hbad. apply Bool.orb_false_iff in Hbad as [-> ->]. reflexivity.
Qed.

Lemma plugins_flags_witness :
  Plugins.plugins {["CVAT_ANALYTICS" := ""]} (fun _ => false) = Raise ValueError.
Proof.
  destruct (plugins_flags {["CVAT_ANALYTICS" := ""]} (fun _ => false)) as (_ & _ & Hbad).
  apply (Hbad ""); [vm_compute; reflexivity | reflexivity].
Defined.

(** ** Cloud storages by provider *)

(** X21. Asking for the cloud storages of a provider gives storages of that
    provider only, all of them among those the user may see on a list, and
    asking for a provider that is not supported is refused with a
    [ValidationError]; an empty provider is no filter. *)
Theorem cloud_storages_by_provider (provider_choices : list string)
    (perm_filter : list CloudStorageViewSet.Storage -> list CloudStorageViewSet.Storage)
    (queryset : list CloudStorageViewSet.Storage) (query_params : gmap string string)
    (provider : string) :
  query_params !! "provider_type" = Some provider ->
  (truthy provider = true -> provider ∉ provider_choices ->
   forall action,
     CloudStorageViewSet.get_queryset provider_choices perm_filter queryset action query_params
     = Raise (ValidationError "Unsupported type of cloud provider"))
  /\ (truthy provider = true -> provider ∈ provider_choices ->
      exists result,
        CloudStorageViewSet.get_queryset provider_choices perm_filter queryset "list"
          query_params = Ok result
        /\ forall st, st ∈ result
                      <-> st ∈ perm_filter queryset
                          /\ CloudStorageViewSet.provider_type st = provider)
  /\ (provider = "" ->
      CloudStorageViewSet.get_queryset provider_choices perm_filter queryset "list"
        query_params = Ok (perm_filter queryset)).
Proof.
  intros Hparam. unfold CloudStorageViewSet.get_queryset. rewrite Hparam.
  repeat apply conj.
  - intros -> Hunsupported action.
    destruct (existsb (String.eqb provider) provider_choices) eqn:Hin; [|reflexivity].
    apply existsb_exists in Hin as (c & Hin & Heq). apply String.eqb_eq in Heq as <-.
    destruct Hunsupported. by apply list_elem_of_In.
  - intros -> Hsupported.
    assert (Hin : existsb (String.eqb provider) provider_choices = true).
    { apply existsb_exists. exists provider. split; [by apply list_elem_of_In|].
      apply String.eqb_refl. }
    rewrite Hin. cbn. eexists. split; [reflexivity|].
    intros st. by rewrite list_elem_of_filter, (comm and).
  - by intros ->.
Qed.

Lemma cloud_storages_by_provider_witness :
  CloudStorageViewSet.get_queryset ["AWS_S3_BUCKET"; "AZURE_CONTAINER"] (fun l => l)
    [{| CloudStorageViewSet.storage_id := 1;
        CloudStorageViewSet.provider_type := "AWS_S3_BUCKET" |}]
    "list" {["provider_type" := "FTP"]}
  = Raise (ValidationError "Unsupported type of cloud provider").
Proof.
  destruct (cloud_storages_by_provider ["AWS_S3_BUCKET"; "AZURE_CONTAINER"] (fun l => l)
              [{| CloudStorageViewSet.storage_id := 1;
                  CloudStorageViewSet.provider_type := "AWS_S3_BUCKET" |}]
              {["provider_type" := "FTP"]} "FTP") as (Hunsupported & _);
    [vm_compute; reflexivity|].
  apply Hunsupported; [reflexivity|].
  intros Hin. apply list_elem_of_In in Hin. cbn in Hin.
  destruct Hin as [Hin | [Hin | []]]; discriminate.
Defined.

Lemma share_lists_the_children_witness :
  truthy "images" = true
  /\ has_slash "images" = false
  /\ exists node,
       fs Demo.share_world !! "/home/django/share/images" = Some node
       /\ (node = RegularFile /\ "DIR" = "REG" \/ node = Directory /\ "DIR" = "DIR").
Proof.
  assert (Hrun : ServerViewSet.share Demo.env (Demo.request "GET" ∅) Demo.share_world
                 = (Ok (Response 200 (DFiles [("images", "DIR")])), Demo.share_world))
    by (vm_compute; reflexivity).
  apply (proj1 (share_lists_the_children Demo.env (Demo.request "GET" ∅) Demo.share_world
                  Demo.share_world [("images", "DIR")] (fun l => eq_refl) Hrun
                  "images" "DIR")).
  apply list_elem_of_singleton. reflexivity.
Defined.

Lemma served_in_range_witness :
  0 <= 3 <= 9.
Proof.
  apply (served_in_range true Demo.get_chunk_number
           {| DataChunkGetter.type := "frame"; DataChunkGetter.number := Some 3;
              DataChunkGetter.quality := DataChunkGetter.COMPRESSED;
              DataChunkGetter.dimension := "2d" |}
           0 9 (Some false) (DataChunkGetter.Frame 3 DataChunkGetter.COMPRESSED)).
  reflexivity.
Defined.

Lemma init_validates_witness :
  exists detail,
    DataChunkGetter.__init__ Demo.int (Some "chunk") (Some "2") "best" "2d"
    = Raise (ValidationError detail).
Proof.
  apply (proj2 (init_validates Demo.int "chunk" (Some "2") "best" "2d" (or_introl eq_refl))).
  intros [_ [Hq | Hq]]; discriminate.
Defined.
